(** * Secret synchronisation: the controller's Reconcile and the event handler

  A shallow embedding of
  - [secret-manager/internal/controller/secretmanager_controller.go]
    (the reconciler of the SecretManager custom resource), and
  - [infra-aws-go/cmd/lambda_sync_secret.go]
    (the function that reacts to a Secrets Manager change event),
  followed by the properties of the synchronisation policy.

  Go values are modelled as follows.
  - [error] values: an inductive type; the nil error is [None].
  - [map[string][]byte]: [gmap string (list byte)]; a nil map and an empty
    map are both [∅], and [len] is [size].
  - The calls to AWS, to the JSON decoder and to the cluster API go through
    an environment record: what a call answers is an input of the model.
  - The cluster's secret store is explicit state, threaded through a small
    state monad together with the list of calls made so far.
  Log and print statements are left out: they have no effect on the
  result or on the stores. *)

From Stdlib Require Import ZArith Lia.
From Stdlib Require Import Strings.String Strings.Ascii Strings.Byte.
From stdpp Require Import base option list strings gmap fin_maps.

Local Open Scope string_scope.

(** ** Go: errors, byte slices, time *)
Module Go.

Abbreviation bytes := (list Byte.byte).

(** An error value. [StatusError] is the API server's error with its
    reason; [WrapError] is what [fmt.Errorf] builds from a [%w] verb:
    a new message around the wrapped error. *)
Inductive error : Type :=
| StatusError (reason : string) (message : string)
| PlainError (message : string)
| WrapError (message : string) (inner : error).

Definition Error (e : error) : string :=
  match e with
  | StatusError _ m => m
  | PlainError m => m
  | WrapError m _ => m
  end.

(** [fmt.Errorf(prefix + "%w", err)] *)
Definition Errorf (prefix : string) (err : error) : error :=
  WrapError (prefix ++ Error err) err.

(** [errors.Is(e, target)] for comparable errors: walk the wrap chain. *)
Inductive Is : error -> error -> Prop :=
| Is_here e : Is e e
| Is_inner m e target : Is e target -> Is (WrapError m e) target.

(** [[]byte(s)] and [string(b)] *)
Definition bytes_of_string (s : string) : bytes := list_byte_of_string s.
Definition string_of_bytes (b : bytes) : string := string_of_list_byte b.

(** [time.Duration] counts nanoseconds in an int64. *)
Definition Duration := Z.
Definition Second : Duration := 1000000000%Z.

(** How a call ends: it returns, or the goroutine panics. *)
Inductive outcome (A : Type) : Type :=
| Returned (a : A)
| Panicked (message : string).
Arguments Returned {A} a.
Arguments Panicked {A} message.

End Go.
Export Go.

(** ** The cluster API: objects, the store, and the client calls *)
Module K8s.

Record OwnerReference : Type := {
  RefAPIVersion : string;
  RefKind : string;
  RefName : string;
  RefUID : string;
  Controller : option bool;
  BlockOwnerDeletion : option bool
}.

Record ObjectMeta : Type := {
  Name : string;
  Namespace : string;
  UID : string;
  ResourceVersion : string;
  Labels : gmap string string;
  Annotations : gmap string string;
  OwnerReferences : list OwnerReference;
  Finalizers : list string
}.

(** [metav1.ObjectMeta{Name: name, Namespace: namespace}] with every
    other field at its zero value. *)
Definition objectMeta (name namespace : string) : ObjectMeta := {|
  Name := name; Namespace := namespace;
  UID := EmptyString; ResourceVersion := EmptyString;
  Labels := ∅; Annotations := ∅;
  OwnerReferences := []; Finalizers := []
|}.

Definition withLabels (l : gmap string string) (m : ObjectMeta) : ObjectMeta := {|
  Name := Name m; Namespace := Namespace m;
  UID := UID m; ResourceVersion := ResourceVersion m;
  Labels := l; Annotations := Annotations m;
  OwnerReferences := OwnerReferences m; Finalizers := Finalizers m
|}.

Definition withOwnerReferences (r : list OwnerReference) (m : ObjectMeta) : ObjectMeta := {|
  Name := Name m; Namespace := Namespace m;
  UID := UID m; ResourceVersion := ResourceVersion m;
  Labels := Labels m; Annotations := Annotations m;
  OwnerReferences := r; Finalizers := Finalizers m
|}.

Definition SecretType := string.
Definition SecretTypeOpaque : SecretType := "Opaque".

(** [v1.Secret] *)
Record Secret : Type := {
  Meta : ObjectMeta;
  Immutable : option bool;
  Data : gmap string bytes;
  StringData : gmap string string;
  Type_ : SecretType
}.

(** [existing.Data = d] *)
Definition setData (d : gmap string bytes) (s : Secret) : Secret := {|
  Meta := Meta s; Immutable := Immutable s;
  Data := d; StringData := StringData s; Type_ := Type_ s
|}.

(** [existing.Type = t] *)
Definition setType (t : SecretType) (s : Secret) : Secret := {|
  Meta := Meta s; Immutable := Immutable s;
  Data := Data s; StringData := StringData s; Type_ := t
|}.

Definition setMeta (m : ObjectMeta) (s : Secret) : Secret := {|
  Meta := m; Immutable := Immutable s;
  Data := Data s; StringData := StringData s; Type_ := Type_ s
|}.

(** The key of an object in its store: (namespace, name). *)
Abbreviation ObjectKey := (string * string)%type.
Definition keyOf (s : Secret) : ObjectKey := (Namespace (Meta s), Name (Meta s)).

(** [apierrors.NewNotFound] and [apierrors.NewAlreadyExists] *)
Definition NewNotFound (resource name : string) : error :=
  StatusError "NotFound" (resource ++ " " ++ name ++ " not found").
Definition NewAlreadyExists (resource name : string) : error :=
  StatusError "AlreadyExists" (resource ++ " " ++ name ++ " already exists").

(** [apierrors.IsNotFound]: the reason of the first status error in the
    wrap chain. *)
Fixpoint IsNotFound (e : error) : bool :=
  match e with
  | StatusError reason _ => bool_decide (reason = "NotFound")
  | PlainError _ => false
  | WrapError _ inner => IsNotFound inner
  end.

(** [client.IgnoreNotFound] *)
Definition IgnoreNotFound (err : option error) : option error :=
  match err with
  | Some e => if IsNotFound e then None else Some e
  | None => None
  end.

(** Failures of the API calls that do not come from the content of the
    store (no permission, no connection, a conflict): when set, the call
    answers with that error and the store is not touched. *)
Record Faults : Type := {
  getFault : option error;
  createFault : option error;
  updateFault : option error
}.

Definition noFaults : Faults :=
  {| getFault := None; createFault := None; updateFault := None |}.

End K8s.
Export K8s.

(** ** The binding object *)
Module Api.

(** Modelled from the spec: the declaration of the SecretManager type
    (package api/v1) is not among the sources. The binding holds the
    identity of the sink secret, a namespace and a name, and a single string
    that names the source secret; the reconciler reads [sm.Namespace],
    [sm.Spec.Name] and [sm.Spec.SourceSecretName]. [SpecName] is the field
    [Name] of the specification. *)
Record SecretManagerSpec : Type := {
  SpecName : string;
  SourceSecretName : string
}.

Record SecretManager : Type := {
  ManagerMeta : ObjectMeta;
  Spec : SecretManagerSpec
}.

End Api.
Export Api.

(** ** The secrets service *)
Module Aws.

(** [secretsmanager.GetSecretValueOutput]: the two fields that are read. *)
Record GetSecretValueOutput : Type := {
  SecretString : option string;
  SecretBinary : option bytes
}.

End Aws.
Export Aws.

(** ** The world: the cluster's stores and the calls made *)
Module World.

Inductive Call : Type :=
| AwsGetSecretValue (region secretId : string)
| EksDescribeCluster (name : string)
| GetManager (key : ObjectKey)
| GetSecret (key : ObjectKey)
| CreateSecret (s : Secret)
| UpdateSecret (s : Secret).

Record World : Type := {
  managers : gmap ObjectKey SecretManager;
  secrets : gmap ObjectKey Secret;
  calls : list Call
}.

(** A computation that reads and changes the world. *)
Definition M (A : Type) : Type := World -> A * World.

Definition ret {A : Type} (a : A) : M A := fun w => (a, w).

Definition bind {A B : Type} (m : M A) (k : A -> M B) : M B :=
  fun w => let (a, w') := m w in k a w'.

Notation "x <~ m ;; k" := (bind m (fun x => k))
  (at level 100, m at next level, right associativity).

Definition record (c : Call) : M unit :=
  fun w => (tt, {| managers := managers w; secrets := secrets w;
                   calls := calls w ++ [c] |}).

Definition storeSecret (s : Secret) : M unit :=
  fun w => (tt, {| managers := managers w;
                   secrets := <[keyOf s := s]> (secrets w);
                   calls := calls w |}).

(** Read a binding object. *)
Definition getManager (fault : option error) (key : ObjectKey)
  : M (error + SecretManager) :=
  _ <~ record (GetManager key) ;;
  fun w =>
    match fault with
    | Some e => (inl e, w)
    | None =>
      match managers w !! key with
      | Some sm => (inr sm, w)
      | None => (inl (NewNotFound "secretmanagers" (snd key)), w)
      end
    end.

(** Read a secret: the stored object, or a NotFound status error. *)
Definition getSecret (f : Faults) (key : ObjectKey) : M (error + Secret) :=
  _ <~ record (GetSecret key) ;;
  fun w =>
    match getFault f with
    | Some e => (inl e, w)
    | None =>
      match secrets w !! key with
      | Some s => (inr s, w)
      | None => (inl (NewNotFound "secrets" (snd key)), w)
      end
    end.

(** Create a secret: refused when one is stored under the same key.
    The object is stored as submitted; the fields the API server fills in
    (uid, resource version, timestamps) are not modelled. *)
Definition createSecret (f : Faults) (s : Secret) : M (option error) :=
  _ <~ record (CreateSecret s) ;;
  fun w =>
    match createFault f with
    | Some e => (Some e, w)
    | None =>
      match secrets w !! keyOf s with
      | Some _ => (Some (NewAlreadyExists "secrets" (Name (Meta s))), w)
      | None => (None, snd (storeSecret s w))
      end
    end.

(** Update a secret: the stored object is replaced by the submitted one;
    refused when none is stored under that key. *)
Definition updateSecret (f : Faults) (s : Secret) : M (option error) :=
  _ <~ record (UpdateSecret s) ;;
  fun w =>
    match updateFault f with
    | Some e => (Some e, w)
    | None =>
      match secrets w !! keyOf s with
      | Some _ => (None, snd (storeSecret s w))
      | None => (Some (NewNotFound "secrets" (Name (Meta s))), w)
      end
    end.

(** The writes among the calls, in order. *)
Definition isWrite (c : Call) : bool :=
  match c with
  | CreateSecret _ | UpdateSecret _ => true
  | _ => false
  end.

Definition writes (cs : list Call) : list Call := List.filter isWrite cs.

(** The calls that reach the sink at all, reads included. *)
Definition isSinkCall (c : Call) : bool :=
  match c with
  | GetSecret _ | CreateSecret _ | UpdateSecret _ => true
  | _ => false
  end.

(** A world with the given stores and no call made yet. *)
Definition world (ms : gmap ObjectKey SecretManager) (ss : gmap ObjectKey Secret) : World :=
  {| managers := ms; secrets := ss; calls := [] |}.

End World.
Export World.

(** ** The reconciler: secretmanager_controller.go *)
Module Controller.

(** What the libraries and services answer during one call of Reconcile. *)
Record Env : Type := {
  (** [config.LoadDefaultConfig] for a region: the error, if any *)
  LoadDefaultConfig : string -> option error;
  (** [svc.GetSecretValue] for a region and a secret id *)
  GetSecretValue : string -> string -> error + GetSecretValueOutput;
  (** [json.Unmarshal] of a text into a [map[string]string] *)
  Unmarshal : string -> error + gmap string string;
  (** failure of the read of the binding object *)
  managerFault : option error;
  (** failure of [ctrl.SetControllerReference] *)
  ownerRefError : option error;
  (** failures of the calls on secrets *)
  faults : Faults
}.

(** [ctrl.Request] and [ctrl.Result] *)
Record Request : Type := { NamespacedName : ObjectKey }.

Record Result : Type := {
  Requeue : bool;
  RequeueAfter : Duration
}.

(** [ctrl.Result{}] *)
Definition emptyResult : Result := {| Requeue := false; RequeueAfter := 0%Z |}.

Definition region : string := "ap-southeast-1".

(** Lines 95-97: [for k, v := range tmp { secretData[k] = []byte(v) }]. *)
Definition rangeAssign (tmp : gmap string string) (secretData : gmap string bytes)
  : gmap string bytes :=
  map_fold (fun k v acc => <[k := bytes_of_string v]> acc) secretData tmp.

(** Lines 88-101: the payload of the secret to write, from the answer of
    the secrets service. *)
Definition secretDataOf (env : Env) (getOut : GetSecretValueOutput)
  : error + gmap string bytes :=
  let secretData : gmap string bytes := ∅ in
  match SecretString getOut with
  | Some str =>
    match Unmarshal env str with
    | inl err => inl err
    | inr tmp => inr (rangeAssign tmp secretData)
    end
  | None =>
    match SecretBinary getOut with
    | Some b => inr (<["secret" := b]> secretData)
    | None => inr secretData
    end
  end.

(** The reference that [ctrl.SetControllerReference] writes: the owner's
    kind, name and uid, marked as the controller. The group my.domain is
    that of the access markers above Reconcile, the version v1 that of the
    imported package api/v1. *)
Definition controllerRef (owner : SecretManager) : OwnerReference := {|
  RefAPIVersion := "my.domain/v1";
  RefKind := "SecretManager";
  RefName := Name (ManagerMeta owner);
  RefUID := UID (ManagerMeta owner);
  Controller := Some true;
  BlockOwnerDeletion := Some true
|}.

(** [ctrl.SetControllerReference(&sm, k8sSecret, r.Scheme)]: the object is
    new and has no reference yet, so the reference is added. *)
Definition SetControllerReference (env : Env) (owner : SecretManager) (controlled : Secret)
  : error + Secret :=
  match ownerRefError env with
  | Some e => inl e
  | None =>
    inr (setMeta (withOwnerReferences
                    (OwnerReferences (Meta controlled) ++ [controllerRef owner])
                    (Meta controlled))
                 controlled)
  end.

(** Lines 128-133: the loop over the desired data, left at the first key
    that the existing data lacks or holds with another value. *)
Fixpoint rangeDiffers (existing : gmap string bytes) (desired : list (string * bytes))
  : bool :=
  match desired with
  | [] => false
  | (k, v) :: rest =>
    match existing !! k with
    | None => true
    | Some ev =>
      if bool_decide (string_of_bytes ev ≠ string_of_bytes v) then true
      else rangeDiffers existing rest
    end
  end.

(** Lines 124-134: [needUpdate]. *)
Definition needUpdate (existing desired : gmap string bytes) : bool :=
  if bool_decide (size existing ≠ size desired) then true
  else rangeDiffers existing (map_to_list desired).

(** [time.Second * 10] *)
Definition requeueInterval : Duration := (Second * 10)%Z.

Definition Reconcile (env : Env) (req : Request) : M (Result * option error) :=
  got <~ getManager (managerFault env) (NamespacedName req) ;;
  match got with
  | inl err => ret (emptyResult, IgnoreNotFound (Some err))
  | inr sm =>
    match LoadDefaultConfig env region with
    | Some err => ret (emptyResult, Some err)
    | None =>
      let awsSecretName := SourceSecretName (Spec sm) in
      _ <~ record (AwsGetSecretValue region awsSecretName) ;;
      match GetSecretValue env region awsSecretName with
      | inl err => ret (emptyResult, Some err)
      | inr getOut =>
        match secretDataOf env getOut with
        | inl err => ret (emptyResult, Some err)
        | inr secretData =>
          let k8sSecret := {|
            Meta := objectMeta (SpecName (Spec sm)) (Namespace (ManagerMeta sm));
            Immutable := None;
            Data := secretData;
            StringData := ∅;
            Type_ := SecretTypeOpaque
          |} in
          match SetControllerReference env sm k8sSecret with
          | inl err => ret (emptyResult, Some err)
          | inr k8sSecret =>
            found <~ getSecret (faults env) (keyOf k8sSecret) ;;
            match found with
            | inr existingSecret =>
              if needUpdate (Data existingSecret) (Data k8sSecret) then
                let existingSecret :=
                  setType (Type_ k8sSecret) (setData (Data k8sSecret) existingSecret) in
                failed <~ updateSecret (faults env) existingSecret ;;
                match failed with
                | Some err => ret (emptyResult, Some err)
                | None => ret ({| Requeue := false; RequeueAfter := requeueInterval |}, None)
                end
              else ret ({| Requeue := false; RequeueAfter := requeueInterval |}, None)
            | inl err =>
              match IgnoreNotFound (Some err) with
              | None =>
                failed <~ createSecret (faults env) k8sSecret ;;
                match failed with
                | Some err => ret (emptyResult, Some err)
                | None => ret ({| Requeue := false; RequeueAfter := requeueInterval |}, None)
                end
              | Some _ => ret (emptyResult, Some err)
              end
            end
          end
        end
      end
    end
  end.

End Controller.

(** ** The event handler: lambda_sync_secret.go *)
Module Lambda.

(** Configuration from environment variables *)
Record Config : Type := {
  EKSClusterName : string;
  Region : string;
  SecretPrefix : string;
  Namespace : string
}.

Record RequestParametersT : Type := { SecretId : string }.

Record SecretsManagerEventDetail : Type := {
  EventSource : string;
  EventName : string;
  RequestParameters : RequestParametersT
}.

(** [events.CloudWatchEvent]: the two fields that are read. *)
Record CloudWatchEvent : Type := {
  DetailType : string;
  Detail : bytes
}.

(** [eks.DescribeClusterOutput.Cluster]: the fields that are read, each
    behind a pointer. *)
Record Certificate : Type := { CertData : bytes }.

Record Cluster : Type := {
  Endpoint : option string;
  CertificateAuthority : option Certificate
}.

(** [kubernetes.Clientset], by the configuration it was built from. *)
Record Clientset : Type := {
  Host : string;
  BearerToken : string;
  CAData : bytes
}.

(** What the process environment, the libraries and the services answer
    during one call of the handler. *)
Record Env : Type := {
  Getenv : string -> string;
  (** the values [json.Unmarshal] stores in an [interface{}] *)
  JsonValue : Type;
  (** [json.Unmarshal] of the event detail *)
  UnmarshalDetail : bytes -> error + SecretsManagerEventDetail;
  (** [json.Unmarshal] of a text into a [map[string]interface{}] *)
  UnmarshalObject : string -> error + gmap string JsonValue;
  (** [fmt.Sprintf("%v", value)] *)
  Sprintf_v : JsonValue -> string;
  LoadDefaultConfig : string -> option error;
  GetSecretValue : string -> string -> error + GetSecretValueOutput;
  DescribeCluster : string -> error + option Cluster;
  NewGenerator : option error;
  GetToken : string -> error + string;
  NewForConfig : Clientset -> option error;
  faults : Faults
}.

(** Step 1: Load configuration from environment variables *)
Definition loadConfig (env : Env) : outcome Config :=
  let cfg := {|
    EKSClusterName := Getenv env "EKS_CLUSTER_NAME";
    Region := Getenv env "AWS_REGION";
    SecretPrefix := Getenv env "SECRET_PREFIX";
    Namespace := Getenv env "K8S_NAMESPACE"
  |} in
  let cfg :=
    if bool_decide (Region cfg = EmptyString)
    then {| EKSClusterName := EKSClusterName cfg; Region := "us-east-1";
            SecretPrefix := SecretPrefix cfg; Namespace := Namespace cfg |}
    else cfg in
  let cfg :=
    if bool_decide (SecretPrefix cfg = EmptyString)
    then {| EKSClusterName := EKSClusterName cfg; Region := Region cfg;
            SecretPrefix := "eks-sync-"; Namespace := Namespace cfg |}
    else cfg in
  let cfg :=
    if bool_decide (Namespace cfg = EmptyString)
    then {| EKSClusterName := EKSClusterName cfg; Region := Region cfg;
            SecretPrefix := SecretPrefix cfg; Namespace := "default" |}
    else cfg in
  if bool_decide (EKSClusterName cfg = EmptyString)
  then Panicked "EKS_CLUSTER_NAME environment variable is required"
  else Returned cfg.

(** Lines 146-148:
    [for key, value := range jsonData { secretData[key] = []byte(fmt.Sprintf("%v", value)) }]. *)
Definition rangeAssign (env : Env) (jsonData : gmap string (JsonValue env))
    (secretData : gmap string bytes) : gmap string bytes :=
  map_fold (fun key value acc => <[key := bytes_of_string (Sprintf_v env value)]> acc)
           secretData jsonData.

(** Step 4: Retrieve secret value from AWS Secrets Manager *)
Definition getSecretFromAWS (env : Env) (region secretName : string)
  : M (error + gmap string bytes) :=
  match LoadDefaultConfig env region with
  | Some err => ret (inl (Errorf "failed to load AWS config: " err))
  | None =>
    _ <~ record (AwsGetSecretValue region secretName) ;;
    match GetSecretValue env region secretName with
    | inl err => ret (inl (Errorf "failed to get secret value: " err))
    | inr result =>
      let secretData : gmap string bytes := ∅ in
      match SecretString result with
      | Some str =>
        match UnmarshalObject env str with
        | inl _ => ret (inr (<["secret" := bytes_of_string str]> secretData))
        | inr jsonData => ret (inr (rangeAssign env jsonData secretData))
        end
      | None =>
        match SecretBinary result with
        | Some b => ret (inr (<["secret" := b]> secretData))
        | None => ret (inr secretData)
        end
      end
    end
  end.

Definition nilDereference : string :=
  "runtime error: invalid memory address or nil pointer dereference".

(** Step 5: Initialize Kubernetes client for EKS *)
Definition getKubernetesClient (env : Env) (cfg : Config)
  : M (outcome (error + Clientset)) :=
  match LoadDefaultConfig env (Region cfg) with
  | Some err => ret (Returned (inl (Errorf "failed to load AWS config: " err)))
  | None =>
    _ <~ record (EksDescribeCluster (EKSClusterName cfg)) ;;
    match DescribeCluster env (EKSClusterName cfg) with
    | inl err => ret (Returned (inl (Errorf "failed to describe EKS cluster: " err)))
    | inr cluster =>
      match NewGenerator env with
      | Some err => ret (Returned (inl (Errorf "failed to create token generator: " err)))
      | None =>
        match GetToken env (EKSClusterName cfg) with
        | inl err => ret (Returned (inl (Errorf "failed to get authentication token: " err)))
        | inr tok =>
          match cluster with
          | Some {| Endpoint := Some endpoint; CertificateAuthority := Some ca |} =>
            let k8sConfig :=
              {| Host := endpoint; BearerToken := tok; CAData := CertData ca |} in
            match NewForConfig env k8sConfig with
            | Some err =>
              ret (Returned (inl (Errorf "failed to create kubernetes client: " err)))
            | None => ret (Returned (inr k8sConfig))
            end
          | _ => ret (Panicked nilDereference)
          end
        end
      end
    end
  end.

Definition managedByLabel : gmap string string :=
  {[ "managed-by" := "aws-secrets-sync-lambda" ]}.

(** Step 6: Update or create Kubernetes secret with the same name *)
Definition updateKubernetesSecret (env : Env) (client : Clientset)
    (namespace secretName : string) (data : gmap string bytes) : M (option error) :=
  found <~ getSecret (faults env) (namespace, secretName) ;;
  match found with
  | inl _ =>
    let secret := {|
      Meta := withLabels managedByLabel (objectMeta secretName namespace);
      Immutable := None;
      Data := data;
      StringData := ∅;
      Type_ := SecretTypeOpaque
    |} in
    failed <~ createSecret (faults env) secret ;;
    match failed with
    | Some err => ret (Some (Errorf "failed to create secret: " err))
    | None => ret None
    end
  | inr existingSecret =>
    let existingSecret := setData data existingSecret in
    failed <~ updateSecret (faults env) existingSecret ;;
    match failed with
    | Some err => ret (Some (Errorf "failed to update secret: " err))
    | None => ret None
    end
  end.

(** HandleRequest is the Lambda handler function *)
Definition HandleRequest (env : Env) (event : CloudWatchEvent)
  : M (outcome (option error)) :=
  match loadConfig env with
  | Panicked m => ret (Panicked m)
  | Returned cfg =>
    match UnmarshalDetail env (Detail event) with
    | inl err => ret (Returned (Some (Errorf "failed to parse event detail: " err)))
    | inr detail =>
      let secretName := SecretId (RequestParameters detail) in
      if negb (String.prefix (SecretPrefix cfg) secretName) then ret (Returned None)
      else
        got <~ getSecretFromAWS env (Region cfg) secretName ;;
        match got with
        | inl err => ret (Returned (Some (Errorf "failed to get secret from AWS: " err)))
        | inr secretData =>
          made <~ getKubernetesClient env cfg ;;
          match made with
          | Panicked m => ret (Panicked m)
          | Returned (inl err) =>
            ret (Returned (Some (Errorf "failed to create kubernetes client: " err)))
          | Returned (inr k8sClient) =>
            failed <~ updateKubernetesSecret env k8sClient (Namespace cfg) secretName secretData ;;
            match failed with
            | Some err =>
              ret (Returned (Some (Errorf "failed to update kubernetes secret: " err)))
            | None => ret (Returned None)
            end
          end
        end
    end
  end.

End Lambda.

(** ** The provisioning program: infra/main.go, lines 12-184

    The function that [pulumi.Run] runs makes a fixed sequence of calls:
    it marshals a policy document, registers a resource or invokes a
    lookup. The arguments of the calls are literals and outputs of earlier
    calls; a call is modelled by its kind, its name and the names of the
    earlier resources whose outputs it uses. What decides the course of the
    function is only whether each call fails. *)
Module Infra.

Inductive Call : Type :=
| JsonMarshal (principal : string)
| Register (type name : string) (uses : list string)
| Invoke (function : string) (uses : list string).

(** The ten calls of the function, in the order of the source. *)
Definition marshalClusterPolicy : Call := JsonMarshal "eks.amazonaws.com".
Definition clusterRole : Call := Register "iam.Role" "cluster-role" [].
Definition clusterPolicyAttachment : Call :=
  Register "iam.RolePolicyAttachment" "cluster-AmazonEKSClusterPolicy"
    ["cluster-role"].
Definition lookupVpc : Call := Invoke "ec2.LookupVpc" [].
Definition getSubnets : Call := Invoke "ec2.GetSubnets" ["ec2.LookupVpc"].
Definition eksCluster : Call :=
  Register "eks.Cluster" "demo-eks"
    ["cluster-role"; "ec2.GetSubnets"; "cluster-AmazonEKSClusterPolicy"].
Definition marshalNodePolicy : Call := JsonMarshal "ec2.amazonaws.com".
Definition nodeRole : Call := Register "iam.Role" "node-role" [].
Definition nodeInstanceProfile : Call :=
  Register "iam.InstanceProfile" "node-instance-profile" ["node-role"].
Definition nodeSecurityGroup : Call :=
  Register "ec2.SecurityGroup" "node-security-group" ["ec2.LookupVpc"; "demo-eks"].

(** The function: [answer] tells which calls fail; the result is the error
    returned and the calls made, in order. The errors of the first eight
    calls are checked and returned; the errors of the last two are
    assigned to [err] and not looked at before [return nil]. *)
Definition run (answer : Call -> option error) : option error * list Call :=
  let made := [marshalClusterPolicy] in
  match answer marshalClusterPolicy with
  | Some err => (Some err, made)
  | None =>
  let made := (made ++ [clusterRole])%list in
  match answer clusterRole with
  | Some err => (Some err, made)
  | None =>
  let made := (made ++ [clusterPolicyAttachment])%list in
  match answer clusterPolicyAttachment with
  | Some err => (Some err, made)
  | None =>
  let made := (made ++ [lookupVpc])%list in
  match answer lookupVpc with
  | Some err => (Some err, made)
  | None =>
  let made := (made ++ [getSubnets])%list in
  match answer getSubnets with
  | Some err => (Some err, made)
  | None =>
  let made := (made ++ [eksCluster])%list in
  match answer eksCluster with
  | Some err => (Some err, made)
  | None =>
  let made := (made ++ [marshalNodePolicy])%list in
  match answer marshalNodePolicy with
  | Some err => (Some err, made)
  | None =>
  let made := (made ++ [nodeRole])%list in
  match answer nodeRole with
  | Some err => (Some err, made)
  | None =>
  let made := (made ++ [nodeInstanceProfile])%list in
  let made := (made ++ [nodeSecurityGroup])%list in
  (None, made)
  end end end end end end end end.

(** The calls whose error the function checks, and all its calls. *)
Definition checked : list Call :=
  [marshalClusterPolicy; clusterRole; clusterPolicyAttachment; lookupVpc;
   getSubnets; eksCluster; marshalNodePolicy; nodeRole].

Definition allCalls : list Call :=
  (checked ++ [nodeInstanceProfile; nodeSecurityGroup])%list.

End Infra.

(** * Properties *)

(** ** The decision read off the calls of a run *)

Inductive SyncDecision : Type := NoOp | Create | Update.

(** The decision a run took, from its writes to the sink: none, one
    creation or one update. *)
Definition decision (cs : list Call) : option SyncDecision :=
  match writes cs with
  | [] => Some NoOp
  | [CreateSecret _] => Some Create
  | [UpdateSecret _] => Some Update
  | _ => None
  end.

(** The calls a computation adds to those of the world it starts in. *)
Definition callsOf {A : Type} (m : M A) (w : World) : list Call :=
  drop (length (calls w)) (calls (snd (m w))).

(** Every stored secret sits under its own namespace and name. *)
Definition wfStore (ss : gmap ObjectKey Secret) : Prop :=
  forall k s, ss !! k = Some s -> keyOf s = k.

(** The world after more calls, with the stores as they were. *)
Definition withCalls (w : World) (cs : list Call) : World :=
  {| managers := managers w; secrets := secrets w; calls := calls w ++ cs |}.

(** The world after more calls, the last of which stored [s]. *)
Definition withSecret (w : World) (s : Secret) (cs : list Call) : World :=
  {| managers := managers w; secrets := <[keyOf s := s]> (secrets w);
     calls := calls w ++ cs |}.

(** *** The reconciler's run *)

(** The identity of the sink secret that a binding names. *)
Definition sinkKey (sm : SecretManager) : ObjectKey :=
  (K8s.Namespace (ManagerMeta sm), SpecName (Spec sm)).

(** The run reads the binding [sm], the source answers, and the answer
    decodes to the desired payload [P]: lines 61-117 pass without error. *)
Record fetches (env : Controller.Env) (req : Controller.Request)
    (ms : gmap ObjectKey SecretManager) (sm : SecretManager)
    (P : gmap string bytes) : Prop := {
  fetches_read : Controller.managerFault env = None;
  fetches_binding : ms !! Controller.NamespacedName req = Some sm;
  fetches_config : Controller.LoadDefaultConfig env Controller.region = None;
  fetches_source : exists getOut,
    Controller.GetSecretValue env Controller.region (SourceSecretName (Spec sm))
      = inr getOut /\
    Controller.secretDataOf env getOut = inr P;
  fetches_owner : Controller.ownerRefError env = None
}.

(** The secret object the reconciler builds for a binding and a payload. *)
Definition desiredSecret (sm : SecretManager) (P : gmap string bytes) : Secret := {|
  Meta := withOwnerReferences [Controller.controllerRef sm]
            (objectMeta (SpecName (Spec sm)) (K8s.Namespace (ManagerMeta sm)));
  Immutable := None;
  Data := P;
  StringData := ∅;
  Type_ := SecretTypeOpaque
|}.

(** The result that asks for the next run after the fixed interval. *)
Definition requeued : Controller.Result :=
  {| Controller.Requeue := false; Controller.RequeueAfter := Controller.requeueInterval |}.

(** The calls of a run up to the read of the sink. *)
Definition fetchCalls (req : Controller.Request) (sm : SecretManager) : list Call :=
  [GetManager (Controller.NamespacedName req);
   AwsGetSecretValue Controller.region (SourceSecretName (Spec sm));
   GetSecret (sinkKey sm)].

(** What the read of the sink answers in a world. *)
Definition observed (f : Faults) (key : ObjectKey) (w : World) : error + Secret :=
  fst (getSecret f key w).

(** *** The handler's run *)

(** What the source step of the handler answers, and the calls it makes;
    neither depends on the world it runs in. *)
Definition sourcePayload (env : Lambda.Env) (region secretName : string)
  : error + gmap string bytes :=
  fst (Lambda.getSecretFromAWS env region secretName (world ∅ ∅)).

Definition sourceCalls (env : Lambda.Env) (region secretName : string) : list Call :=
  callsOf (Lambda.getSecretFromAWS env region secretName) (world ∅ ∅).

(** The same for the step that builds the cluster client. *)
Definition clientOutcome (env : Lambda.Env) (cfg : Lambda.Config)
  : outcome (error + Lambda.Clientset) :=
  fst (Lambda.getKubernetesClient env cfg (world ∅ ∅)).

Definition clientCalls (env : Lambda.Env) (cfg : Lambda.Config) : list Call :=
  callsOf (Lambda.getKubernetesClient env cfg) (world ∅ ∅).

(** The handler gets as far as the sink: the configuration loads, the event
    names a secret with the configured prefix, the source answers with the
    payload [data], and the client is built. *)
Record handles (env : Lambda.Env) (event : Lambda.CloudWatchEvent)
    (cfg : Lambda.Config) (secretName : string) (data : gmap string bytes)
    (client : Lambda.Clientset) : Prop := {
  handles_config : Lambda.loadConfig env = Returned cfg;
  handles_detail : exists detail,
    Lambda.UnmarshalDetail env (Lambda.Detail event) = inr detail /\
    Lambda.SecretId (Lambda.RequestParameters detail) = secretName;
  handles_prefix : String.prefix (Lambda.SecretPrefix cfg) secretName = true;
  handles_source : sourcePayload env (Lambda.Region cfg) secretName = inr data;
  handles_client : clientOutcome env cfg = Returned (inr client)
}.

(** The secret object the handler builds when it creates. *)
Definition labelledSecret (namespace secretName : string) (data : gmap string bytes)
  : Secret := {|
  Meta := withLabels Lambda.managedByLabel (objectMeta secretName namespace);
  Immutable := None;
  Data := data;
  StringData := ∅;
  Type_ := SecretTypeOpaque
|}.

(** The error the handler returns for a failure of its last step. *)
Definition updateFailure (failed : option error) : option error :=
  match failed with
  | Some err => Some (Errorf "failed to update kubernetes secret: " err)
  | None => None
  end.

(** ** Sample inputs

    Concrete bindings, answers of the services and stores, used to run the
    two programs. The decoders below answer as [encoding/json] does on the
    texts that occur here; no other text is given to them. *)
Module Sample.

Definition q : string := String "034"%char EmptyString.

(** The text [{"username":"admin","password":"s3cr3t"}]. *)
Definition credentialsText : string :=
  "{" ++ q ++ "username" ++ q ++ ":" ++ q ++ "admin" ++ q ++ ","
      ++ q ++ "password" ++ q ++ ":" ++ q ++ "s3cr3t" ++ q ++ "}".

Definition credentials : gmap string string :=
  {[ "username" := "admin"; "password" := "s3cr3t" ]}.

Definition payload : gmap string bytes := bytes_of_string <$> credentials.

(** A text that is not JSON, and what the decoder says about it. *)
Definition rawText : string := "not json".

Definition syntaxError : error :=
  PlainError "invalid character 'o' in literal null (expecting 'u')".

Definition unmarshalStrings (text : string) : error + gmap string string :=
  if bool_decide (text = credentialsText) then inr credentials
  else inl syntaxError.

Definition binding : SecretManager := {|
  ManagerMeta := objectMeta "db-binding" "prod";
  Spec := {| SpecName := "db-credentials"; SourceSecretName := "prod/db" |}
|}.

Definition request : Controller.Request :=
  {| Controller.NamespacedName := ("prod", "db-binding") |}.

Definition bindings : gmap ObjectKey SecretManager :=
  {[ ("prod", "db-binding") := binding ]}.

Definition throttled : error := PlainError "ThrottlingException: rate exceeded".

Definition forbidden : error :=
  StatusError "Forbidden" "secrets is forbidden: cannot get resource".

(** The source holds the credentials as text; nothing fails. *)
Definition env : Controller.Env := {|
  Controller.LoadDefaultConfig := fun _ => None;
  Controller.GetSecretValue := fun _ _ =>
    inr {| SecretString := Some credentialsText; SecretBinary := None |};
  Controller.Unmarshal := unmarshalStrings;
  Controller.managerFault := None;
  Controller.ownerRefError := None;
  Controller.faults := noFaults
|}.

(** The same, with a source that holds a text that is not JSON. *)
Definition envRaw : Controller.Env := {|
  Controller.LoadDefaultConfig := fun _ => None;
  Controller.GetSecretValue := fun _ _ =>
    inr {| SecretString := Some rawText; SecretBinary := None |};
  Controller.Unmarshal := unmarshalStrings;
  Controller.managerFault := None;
  Controller.ownerRefError := None;
  Controller.faults := noFaults
|}.

(** The same, with a source that fails. *)
Definition envThrottled : Controller.Env := {|
  Controller.LoadDefaultConfig := fun _ => None;
  Controller.GetSecretValue := fun _ _ => inl throttled;
  Controller.Unmarshal := unmarshalStrings;
  Controller.managerFault := None;
  Controller.ownerRefError := None;
  Controller.faults := noFaults
|}.

(** A secret made by hand, with a label and a type of its own, that holds
    an old password. *)
Definition handMade : Secret := {|
  Meta := withLabels {[ "team" := "payments" ]} (objectMeta "db-credentials" "prod");
  Immutable := None;
  Data := bytes_of_string <$> {[ "username" := "admin"; "password" := "old" ]};
  StringData := ∅;
  Type_ := "kubernetes.io/basic-auth"
|}.

(** The event detail that names a secret. *)
Definition detailOf (secretId : string) : Lambda.SecretsManagerEventDetail := {|
  Lambda.EventSource := "secretsmanager.amazonaws.com";
  Lambda.EventName := "PutSecretValue";
  Lambda.RequestParameters := {| Lambda.SecretId := secretId |}
|}.

(** The text
    [{"eventSource":"secretsmanager.amazonaws.com","eventName":"PutSecretValue","requestParameters":{"secretId":...}}]. *)
Definition detailText (secretId : string) : string :=
  "{" ++ q ++ "eventSource" ++ q ++ ":" ++ q ++ "secretsmanager.amazonaws.com" ++ q ++ ","
      ++ q ++ "eventName" ++ q ++ ":" ++ q ++ "PutSecretValue" ++ q ++ ","
      ++ q ++ "requestParameters" ++ q ++ ":{" ++ q ++ "secretId" ++ q ++ ":"
      ++ q ++ secretId ++ q ++ "}}".

Definition unmarshalDetail (raw : bytes) : error + Lambda.SecretsManagerEventDetail :=
  if bool_decide (string_of_bytes raw = detailText "eks-sync-db")
  then inr (detailOf "eks-sync-db")
  else if bool_decide (string_of_bytes raw = detailText "billing-db")
  then inr (detailOf "billing-db")
  else inl syntaxError.

Definition eventFor (secretId : string) : Lambda.CloudWatchEvent := {|
  Lambda.DetailType := "AWS API Call via CloudTrail";
  Lambda.Detail := bytes_of_string (detailText secretId)
|}.

Definition getenv (name : string) : string :=
  if bool_decide (name = "EKS_CLUSTER_NAME") then "demo-eks" else EmptyString.

Definition cluster : Lambda.Cluster := {|
  Lambda.Endpoint := Some "https://demo-eks.example";
  Lambda.CertificateAuthority := Some {| Lambda.CertData := [] |}
|}.

(** The handler's environment: the JSON values are texts, which [%v]
    prints as they are. *)
Definition handlerEnv (answer : error + GetSecretValueOutput) (f : Faults) : Lambda.Env := {|
  Lambda.Getenv := getenv;
  Lambda.JsonValue := string;
  Lambda.UnmarshalDetail := unmarshalDetail;
  Lambda.UnmarshalObject := unmarshalStrings;
  Lambda.Sprintf_v := fun v => v;
  Lambda.LoadDefaultConfig := fun _ => None;
  Lambda.GetSecretValue := fun _ _ => answer;
  Lambda.DescribeCluster := fun _ => inr (Some cluster);
  Lambda.NewGenerator := None;
  Lambda.GetToken := fun _ => inr "k8s-aws-v1.token";
  Lambda.NewForConfig := fun _ => None;
  Lambda.faults := f
|}.

Definition credentialsAnswer : error + GetSecretValueOutput :=
  inr {| SecretString := Some credentialsText; SecretBinary := None |}.

Definition rawAnswer : error + GetSecretValueOutput :=
  inr {| SecretString := Some rawText; SecretBinary := None |}.

(** A secret in the namespace of the handler that already holds the
    credentials. *)
Definition synced : Secret := {|
  Meta := objectMeta "eks-sync-db" "default";
  Immutable := None;
  Data := payload;
  StringData := ∅;
  Type_ := SecretTypeOpaque
|}.

(** Worlds: the binding alone; the binding and the hand-made secret; the
    handler's namespace with the secret that is in step. *)
Definition freshWorld : World := world bindings ∅.

Definition handMadeWorld : World :=
  world bindings {[ ("prod", "db-credentials") := handMade ]}.

Definition syncedWorld : World :=
  world ∅ {[ ("default", "eks-sync-db") := synced ]}.

Definition handlerOk : Lambda.Env := handlerEnv credentialsAnswer noFaults.

(** The configuration and the client that the handler derives from
    [getenv] and [cluster]. *)
Definition config : Lambda.Config := {|
  Lambda.EKSClusterName := "demo-eks";
  Lambda.Region := "us-east-1";
  Lambda.SecretPrefix := "eks-sync-";
  Lambda.Namespace := "default"
|}.

Definition client : Lambda.Clientset := {|
  Lambda.Host := "https://demo-eks.example";
  Lambda.BearerToken := "k8s-aws-v1.token";
  Lambda.CAData := []
|}.

(** The read of a secret is refused; creations and updates are not. *)
Definition forbiddenRead : Faults :=
  {| getFault := Some forbidden; createFault := None; updateFault := None |}.

(** The handler's environment with other environment variables. *)
Definition handlerEnvWith (vars : string -> string)
    (answer : error + GetSecretValueOutput) (f : Faults) : Lambda.Env := {|
  Lambda.Getenv := vars;
  Lambda.JsonValue := string;
  Lambda.UnmarshalDetail := unmarshalDetail;
  Lambda.UnmarshalObject := unmarshalStrings;
  Lambda.Sprintf_v := fun v => v;
  Lambda.LoadDefaultConfig := fun _ => None;
  Lambda.GetSecretValue := fun _ _ => answer;
  Lambda.DescribeCluster := fun _ => inr (Some cluster);
  Lambda.NewGenerator := None;
  Lambda.GetToken := fun _ => inr "k8s-aws-v1.token";
  Lambda.NewForConfig := fun _ => None;
  Lambda.faults := f
|}.


(** The handler's environment with a cluster whose description cannot be
    read. *)
Definition handlerNoCluster : Lambda.Env := {|
  Lambda.Getenv := getenv;
  Lambda.JsonValue := string;
  Lambda.UnmarshalDetail := unmarshalDetail;
  Lambda.UnmarshalObject := unmarshalStrings;
  Lambda.Sprintf_v := fun v => v;
  Lambda.LoadDefaultConfig := fun _ => None;
  Lambda.GetSecretValue := fun _ _ => credentialsAnswer;
  Lambda.DescribeCluster := fun _ => inl throttled;
  Lambda.NewGenerator := None;
  Lambda.GetToken := fun _ => inr "k8s-aws-v1.token";
  Lambda.NewForConfig := fun _ => None;
  Lambda.faults := noFaults
|}.

(** Answers for the provisioning program: the registrations of the
    instance profile and of the security group fail, every other call
    succeeds; and: the lookup of the network fails. *)
Definition lastTwoFail (c : Infra.Call) : option error :=
  match c with
  | Infra.Register _ name _ =>
    if bool_decide (name = "node-instance-profile") then Some throttled
    else if bool_decide (name = "node-security-group") then Some forbidden
    else None
  | _ => None
  end.

Definition vpcFails (c : Infra.Call) : option error :=
  match c with
  | Infra.Invoke function _ =>
    if bool_decide (function = "ec2.LookupVpc") then Some throttled else None
  | _ => None
  end.

End Sample.

(** *** Vocabulary for the further properties *)

(** The secret that a call on the sink is about. *)
Definition callKey (c : Call) : option ObjectKey :=
  match c with
  | GetSecret k => Some k
  | CreateSecret s | UpdateSecret s => Some (keyOf s)
  | _ => None
  end.

(** The value of an environment variable, or the default when it is empty. *)
Definition orDefault (value default : string) : string :=
  if bool_decide (value = EmptyString) then default else value.

(** ** Payloads *)
Section Payloads.

Implicit Types (existing desired : gmap string bytes).

Lemma string_of_bytes_inj (a b : bytes) :
  string_of_bytes a = string_of_bytes b -> a = b.
Proof.
  unfold string_of_bytes. intros E.
  rewrite <- (list_byte_of_string_of_list_byte a),
          <- (list_byte_of_string_of_list_byte b).
  now f_equal.
Qed.

(** The loop finds no difference exactly when the existing data holds
    every listed entry. *)
Lemma rangeDiffers_false existing (l : list (string * bytes)) :
  Controller.rangeDiffers existing l = false <->
  (forall k v, (k, v) ∈ l -> existing !! k = Some v).
Proof.
  induction l as [|[k v] l IH]; simpl.
  - split; [intros _ k v H; inversion H | reflexivity].
  - destruct (existing !! k) as [ev|] eqn:Ek.
    + case_bool_decide as Hne.
      * split; [discriminate|]. intros H.
        specialize (H k v (list_elem_of_here _ _)).
        rewrite Ek in H. injection H as ->. now destruct Hne.
      * apply string_of_bytes_inj in Hne as ->.
        rewrite IH. split.
        -- intros H k' v' Hin. apply elem_of_cons in Hin as [[= -> ->]|Hin]; auto.
        -- intros H k' v' Hin. apply H. now apply list_elem_of_further.
    + split; [discriminate|]. intros H.
      specialize (H k v (list_elem_of_here _ _)). congruence.
Qed.

(** The order in which the loop visits the entries does not matter. *)
Lemma rangeDiffers_Permutation existing (l1 l2 : list (string * bytes)) :
  l1 ≡ₚ l2 -> Controller.rangeDiffers existing l1 = Controller.rangeDiffers existing l2.
Proof.
  intros HP.
  destruct (Controller.rangeDiffers existing l1) eqn:E1,
           (Controller.rangeDiffers existing l2) eqn:E2; try reflexivity.
  - pose proof (proj1 (rangeDiffers_false _ _) E2) as H2.
    assert (Controller.rangeDiffers existing l1 = false) as E; [|congruence].
    apply rangeDiffers_false. intros k v Hin. apply H2. now rewrite <- HP.
  - pose proof (proj1 (rangeDiffers_false _ _) E1) as H1.
    assert (Controller.rangeDiffers existing l2 = false) as E; [|congruence].
    apply rangeDiffers_false. intros k v Hin. apply H1. now rewrite HP.
Qed.

Lemma needUpdate_false existing desired :
  Controller.needUpdate existing desired = false <-> existing = desired.
Proof.
  unfold Controller.needUpdate. case_bool_decide as Hsz.
  - split; [discriminate|]. intros ->. now destruct Hsz.
  - rewrite rangeDiffers_false. split.
    + intros H. symmetry. apply map_subseteq_size_eq; [|lia].
      apply map_subseteq_spec. intros k v Hk. apply H.
      now apply elem_of_map_to_list.
    + intros -> k v Hin. now apply elem_of_map_to_list.
Qed.

Lemma needUpdate_true existing desired :
  Controller.needUpdate existing desired = true <->
  (size existing <> size desired \/
   exists k v, desired !! k = Some v /\ existing !! k <> Some v).
Proof.
  split.
  - intros H. destruct (decide (size existing = size desired)) as [Hsz|]; [|now left].
    right. unfold Controller.needUpdate in H.
    rewrite bool_decide_eq_false_2 in H by (intros Hn; now apply Hn).
    revert H. generalize (map_to_list desired) (fun k v => proj1 (elem_of_map_to_list desired k v)).
    intros l. induction l as [|[k v] l IH]; simpl; intros Hl H; [discriminate|].
    destruct (existing !! k) as [ev|] eqn:Ek.
    + case_bool_decide as Hne.
      * exists k, v. split; [apply Hl; left|]. rewrite Ek. intros [= ->]. now destruct Hne.
      * apply IH; [|exact H]. intros k' v' Hin. apply Hl. now right.
    + exists k, v. split; [apply Hl; left|]. rewrite Ek. discriminate.
  - intros H. destruct (Controller.needUpdate existing desired) eqn:E; [reflexivity|].
    apply needUpdate_false in E as ->. destruct H as [H|(k & v & Hk & Hn)]; congruence.
Qed.

(** The loop that fills the payload from the decoded mapping stores the
    bytes of every value under its key. *)
Lemma rangeAssign_fmap (tmp : gmap string string) :
  Controller.rangeAssign tmp ∅ = bytes_of_string <$> tmp.
Proof.
  unfold Controller.rangeAssign.
  apply (map_fold_weak_ind (fun r m => r = bytes_of_string <$> m)).
  - now rewrite fmap_empty.
  - intros k v m r _ ->. now rewrite fmap_insert.
Qed.

End Payloads.

(** ** The calls and the stores of a run *)
Section Runs.

Lemma callsOf_withCalls {A : Type} (m : M A) (w : World) (a : A) (cs : list Call) :
  m w = (a, withCalls w cs) -> callsOf m w = cs.
Proof. intros E. unfold callsOf. rewrite E. simpl. apply drop_app_length. Qed.

Lemma callsOf_withSecret {A : Type} (m : M A) (w : World) (a : A) s (cs : list Call) :
  m w = (a, withSecret w s cs) -> callsOf m w = cs.
Proof. intros E. unfold callsOf. rewrite E. simpl. apply drop_app_length. Qed.

Lemma observed_present f key w s :
  getFault f = None -> secrets w !! key = Some s -> observed f key w = inr s.
Proof. intros Hf Hs. unfold observed, getSecret, bind, record. simpl. now rewrite Hf, Hs. Qed.

Lemma observed_absent f key w :
  getFault f = None -> secrets w !! key = None ->
  observed f key w = inl (NewNotFound "secrets" (snd key)).
Proof. intros Hf Hs. unfold observed, getSecret, bind, record. simpl. now rewrite Hf, Hs. Qed.

Lemma observed_inr f key w s :
  observed f key w = inr s -> getFault f = None /\ secrets w !! key = Some s.
Proof.
  unfold observed, getSecret, bind, record. simpl.
  destruct (getFault f); [discriminate|].
  destruct (secrets w !! key); [|discriminate]. now intros [= ->].
Qed.

Lemma observed_withCalls f key w cs :
  observed f key (withCalls w cs) = observed f key w.
Proof.
  unfold observed, getSecret, bind, record. simpl.
  destruct (getFault f); [reflexivity|]. now destruct (secrets w !! key).
Qed.

Lemma wfStore_insert ss s : wfStore ss -> wfStore (<[keyOf s := s]> ss).
Proof.
  intros Hwf k s'. rewrite lookup_insert. case_decide as Hk.
  - now intros [= <-].
  - apply Hwf.
Qed.

End Runs.

(** ** The reconciler, case by case *)
Section ReconcileCases.

Import Controller.

Variables (env : Env) (req : Request) (w : World).
Variables (sm : SecretManager) (P : gmap string bytes).
Hypothesis Hfetch : fetches env req (managers w) sm P.

Ltac enter :=
  destruct Hfetch as [H1 H2 H3 (getOut & H4 & H5) H6];
  unfold observed in *;
  unfold Reconcile, getManager, getSecret, updateSecret, createSecret,
    storeSecret, bind, record, ret in *; simpl in *;
  rewrite H1, H2, H3; simpl; rewrite H4, H5;
  unfold SetControllerReference; rewrite H6; simpl;
  unfold keyOf in *; simpl in *; fold (sinkKey sm) in *.

Ltac tidy :=
  unfold withCalls, withSecret, fetchCalls, keyOf; simpl;
  rewrite <- ?app_assoc; simpl; try reflexivity.

Lemma Reconcile_noop (existing : Secret) :
  observed (faults env) (sinkKey sm) w = inr existing ->
  needUpdate (Data existing) P = false ->
  Reconcile env req w = ((requeued, None), withCalls w (fetchCalls req sm)).
Proof.
  intros Hobs Hno. enter.
  destruct (getFault (faults env)); [discriminate|].
  destruct (secrets w !! sinkKey sm); [|discriminate].
  injection Hobs as ->. rewrite Hno. tidy.
Qed.

Lemma Reconcile_update (existing : Secret) :
  observed (faults env) (sinkKey sm) w = inr existing ->
  needUpdate (Data existing) P = true ->
  let updated := setType SecretTypeOpaque (setData P existing) in
  Reconcile env req w =
    match updateFault (faults env) with
    | Some e =>
      ((emptyResult, Some e),
       withCalls w (fetchCalls req sm ++ [UpdateSecret updated]))
    | None =>
      match secrets w !! keyOf existing with
      | Some _ =>
        ((requeued, None),
         withSecret w updated (fetchCalls req sm ++ [UpdateSecret updated]))
      | None =>
        ((emptyResult, Some (NewNotFound "secrets" (Name (Meta existing)))),
         withCalls w (fetchCalls req sm ++ [UpdateSecret updated]))
      end
    end.
Proof.
  intros Hobs Hyes. enter.
  destruct (getFault (faults env)); [discriminate|].
  destruct (secrets w !! sinkKey sm) as [s|] eqn:Hs; [|discriminate].
  injection Hobs as ->. rewrite Hyes. simpl.
  destruct (updateFault (faults env)); [tidy|].
  simpl.
  destruct (secrets w !! (K8s.Namespace (Meta existing), Name (Meta existing))); tidy.
Qed.

Lemma Reconcile_create (e : error) :
  observed (faults env) (sinkKey sm) w = inl e ->
  IsNotFound e = true ->
  let created := desiredSecret sm P in
  Reconcile env req w =
    match createFault (faults env) with
    | Some e' =>
      ((emptyResult, Some e'),
       withCalls w (fetchCalls req sm ++ [CreateSecret created]))
    | None =>
      match secrets w !! sinkKey sm with
      | Some _ =>
        ((emptyResult, Some (NewAlreadyExists "secrets" (SpecName (Spec sm)))),
         withCalls w (fetchCalls req sm ++ [CreateSecret created]))
      | None =>
        ((requeued, None),
         withSecret w created (fetchCalls req sm ++ [CreateSecret created]))
      end
    end.
Proof.
  intros Hobs Hnf. enter.
  destruct (getFault (faults env)) as [e0|].
  - injection Hobs as ->. rewrite Hnf. simpl.
    destruct (createFault (faults env)); [tidy|]. simpl.
    destruct (secrets w !! sinkKey sm); tidy.
  - destruct (secrets w !! sinkKey sm) as [s|] eqn:Hs; [discriminate|].
    injection Hobs as <-. simpl.
    destruct (createFault (faults env)); [tidy|].
    simpl. rewrite Hs. tidy.
Qed.

Lemma Reconcile_sink_error (e : error) :
  observed (faults env) (sinkKey sm) w = inl e ->
  IsNotFound e = false ->
  Reconcile env req w = ((emptyResult, Some e), withCalls w (fetchCalls req sm)).
Proof.
  intros Hobs Hnf. enter.
  destruct (getFault (faults env)) as [e0|].
  - injection Hobs as ->. rewrite Hnf. tidy.
  - destruct (secrets w !! sinkKey sm) as [s|] eqn:Hs; [discriminate|].
    injection Hobs as <-. discriminate.
Qed.

End ReconcileCases.

(** ** The handler, step by step *)
Section HandlerSteps.

Import Lambda.

Variable env : Env.

Lemma withCalls_withCalls w cs1 cs2 :
  withCalls (withCalls w cs1) cs2 = withCalls w (cs1 ++ cs2).
Proof. unfold withCalls. simpl. now rewrite app_assoc. Qed.

Lemma withSecret_withCalls w s cs1 cs2 :
  withSecret (withCalls w cs1) s cs2 = withSecret w s (cs1 ++ cs2).
Proof. unfold withSecret, withCalls. simpl. now rewrite app_assoc. Qed.

Lemma withCalls_nil w : withCalls w [] = w.
Proof. destruct w. unfold withCalls. simpl. now rewrite app_nil_r. Qed.

Lemma getSecretFromAWS_run region secretName w :
  getSecretFromAWS env region secretName w =
    (sourcePayload env region secretName,
     withCalls w (sourceCalls env region secretName)).
Proof.
  unfold sourcePayload, sourceCalls, callsOf, getSecretFromAWS, bind, record, ret.
  repeat (case_match; simpl); try (now rewrite withCalls_nil); reflexivity.
Qed.

Lemma getKubernetesClient_run cfg w :
  getKubernetesClient env cfg w =
    (clientOutcome env cfg, withCalls w (clientCalls env cfg)).
Proof.
  unfold clientOutcome, clientCalls, callsOf, getKubernetesClient, bind, record, ret.
  repeat (case_match; simpl); try (now rewrite withCalls_nil); reflexivity.
Qed.

(** The source step makes no call on the sink. *)
Lemma sourceCalls_no_sink region secretName :
  List.filter isSinkCall (sourceCalls env region secretName) = [].
Proof.
  unfold sourceCalls, callsOf, getSecretFromAWS, bind, record, ret.
  repeat (case_match; simpl); reflexivity.
Qed.

Lemma clientCalls_no_sink cfg :
  List.filter isSinkCall (clientCalls env cfg) = [].
Proof.
  unfold clientCalls, callsOf, getKubernetesClient, bind, record, ret.
  repeat (case_match; simpl); reflexivity.
Qed.

Lemma updateKubernetesSecret_present client namespace secretName data w existing :
  observed (faults env) (namespace, secretName) w = inr existing ->
  let updated := setData data existing in
  updateKubernetesSecret env client namespace secretName data w =
    match updateFault (faults env) with
    | Some e =>
      (Some (Errorf "failed to update secret: " e),
       withCalls w [GetSecret (namespace, secretName); UpdateSecret updated])
    | None =>
      match secrets w !! keyOf existing with
      | Some _ =>
        (None,
         withSecret w updated [GetSecret (namespace, secretName); UpdateSecret updated])
      | None =>
        (Some (Errorf "failed to update secret: "
                 (NewNotFound "secrets" (Name (Meta existing)))),
         withCalls w [GetSecret (namespace, secretName); UpdateSecret updated])
      end
    end.
Proof.
  intros Hobs. apply observed_inr in Hobs as [Hf Hs].
  unfold updateKubernetesSecret, getSecret, updateSecret, storeSecret, bind, record, ret.
  simpl. rewrite Hf, Hs. simpl.
  unfold withCalls, withSecret, keyOf.
  destruct (updateFault (faults env)); simpl; rewrite <- ?app_assoc; [reflexivity|].
  destruct (secrets w !! (K8s.Namespace (Meta existing), Name (Meta existing)));
    simpl; now rewrite <- ?app_assoc.
Qed.

(** Any error of the read of the sink leads to a creation. *)
Lemma updateKubernetesSecret_absent client namespace secretName data w e :
  observed (faults env) (namespace, secretName) w = inl e ->
  let created := labelledSecret namespace secretName data in
  updateKubernetesSecret env client namespace secretName data w =
    match createFault (faults env) with
    | Some e' =>
      (Some (Errorf "failed to create secret: " e'),
       withCalls w [GetSecret (namespace, secretName); CreateSecret created])
    | None =>
      match secrets w !! (namespace, secretName) with
      | Some _ =>
        (Some (Errorf "failed to create secret: "
                 (NewAlreadyExists "secrets" secretName)),
         withCalls w [GetSecret (namespace, secretName); CreateSecret created])
      | None =>
        (None,
         withSecret w created [GetSecret (namespace, secretName); CreateSecret created])
      end
    end.
Proof.
  intros Hobs. unfold observed in Hobs.
  unfold updateKubernetesSecret, getSecret, createSecret, storeSecret, bind, record, ret in *.
  simpl in *. unfold withCalls, withSecret, labelledSecret, keyOf. simpl.
  destruct (getFault (faults env)).
  - simpl. destruct (createFault (faults env)); simpl; rewrite <- ?app_assoc; [reflexivity|].
    destruct (secrets w !! (namespace, secretName)); simpl; now rewrite <- ?app_assoc.
  - destruct (secrets w !! (namespace, secretName)) eqn:Hs; [discriminate|]. simpl.
    destruct (createFault (faults env)); simpl; rewrite <- ?app_assoc; [reflexivity|].
    rewrite Hs. simpl. now rewrite <- ?app_assoc.
Qed.

Lemma HandleRequest_handles event cfg secretName data client w :
  handles env event cfg secretName data client ->
  HandleRequest env event w =
    let (failed, w') :=
      updateKubernetesSecret env client (Namespace cfg) secretName data
        (withCalls w (sourceCalls env (Region cfg) secretName ++ clientCalls env cfg)) in
    (Returned (updateFailure failed), w').
Proof.
  intros [Hc (detail & Hd & Hn) Hp Hs Hk].
  unfold HandleRequest. rewrite Hc, Hd, Hn, Hp. simpl.
  unfold bind at 1. rewrite getSecretFromAWS_run, Hs.
  unfold bind at 1. rewrite getKubernetesClient_run, Hk.
  unfold bind at 1. rewrite withCalls_withCalls.
  destruct (updateKubernetesSecret _ _ _ _ _ _) as [[err|] w']; reflexivity.
Qed.

End HandlerSteps.

(** ** Every run either stops before the sink or reaches it *)
Section Classification.

Lemma Reconcile_cases (env : Controller.Env) (req : Controller.Request) (w : World) :
  (exists sm P, fetches env req (managers w) sm P) \/
  (exists err cs,
     Controller.Reconcile env req w = ((Controller.emptyResult, err), withCalls w cs) /\
     List.filter isSinkCall cs = [] /\
     (err = None -> cs = [GetManager (Controller.NamespacedName req)])).
Proof.
  destruct (Controller.managerFault env) as [e|] eqn:H1.
  { right. exists (IgnoreNotFound (Some e)), [GetManager (Controller.NamespacedName req)].
    unfold Controller.Reconcile, getManager, bind, record, ret. simpl.
    now rewrite H1. }
  destruct (managers w !! Controller.NamespacedName req) as [sm|] eqn:H2.
  2: { right. eexists _, [GetManager (Controller.NamespacedName req)].
       unfold Controller.Reconcile, getManager, bind, record, ret. simpl.
       rewrite H1, H2. simpl. eauto. }
  destruct (Controller.LoadDefaultConfig env Controller.region) as [e|] eqn:H3.
  { right. exists (Some e), [GetManager (Controller.NamespacedName req)].
    unfold Controller.Reconcile, getManager, bind, record, ret. simpl.
    rewrite H1, H2, H3. simpl. split; [reflexivity|]. split; [reflexivity|discriminate]. }
  destruct (Controller.GetSecretValue env Controller.region (SourceSecretName (Spec sm)))
    as [e|getOut] eqn:H4.
  { right. exists (Some e), [GetManager (Controller.NamespacedName req);
      AwsGetSecretValue Controller.region (SourceSecretName (Spec sm))].
    unfold Controller.Reconcile, getManager, bind, record, ret. simpl.
    rewrite H1, H2, H3. simpl. rewrite H4. unfold withCalls. simpl.
    rewrite <- app_assoc. split; [reflexivity|]. split; [reflexivity|discriminate]. }
  destruct (Controller.secretDataOf env getOut) as [e|P] eqn:H5.
  { right. exists (Some e), [GetManager (Controller.NamespacedName req);
      AwsGetSecretValue Controller.region (SourceSecretName (Spec sm))].
    unfold Controller.Reconcile, getManager, bind, record, ret. simpl.
    rewrite H1, H2, H3. simpl. rewrite H4, H5. unfold withCalls. simpl.
    rewrite <- app_assoc. split; [reflexivity|]. split; [reflexivity|discriminate]. }
  destruct (Controller.ownerRefError env) as [e|] eqn:H6.
  { right. exists (Some e), [GetManager (Controller.NamespacedName req);
      AwsGetSecretValue Controller.region (SourceSecretName (Spec sm))].
    unfold Controller.Reconcile, getManager, bind, record, ret. simpl.
    rewrite H1, H2, H3. simpl. rewrite H4, H5.
    unfold Controller.SetControllerReference. rewrite H6. unfold withCalls. simpl.
    rewrite <- app_assoc. split; [reflexivity|]. split; [reflexivity|discriminate]. }
  left. exists sm, P. split; eauto.
Qed.

(** The binding and the payload of a run are determined. *)
Lemma fetches_unique env req ms sm1 P1 sm2 P2 :
  fetches env req ms sm1 P1 -> fetches env req ms sm2 P2 -> sm1 = sm2 /\ P1 = P2.
Proof.
  intros [_ Hb1 _ (o1 & Hs1 & Hd1) _] [_ Hb2 _ (o2 & Hs2 & Hd2) _].
  assert (sm1 = sm2) as -> by congruence. split; [reflexivity|]. congruence.
Qed.

Lemma HandleRequest_cases (env : Lambda.Env) (event : Lambda.CloudWatchEvent) (w : World) :
  (exists cfg secretName data client, handles env event cfg secretName data client) \/
  (exists r cs,
     Lambda.HandleRequest env event w = (r, withCalls w cs) /\
     List.filter isSinkCall cs = []).
Proof.
  unfold Lambda.HandleRequest.
  destruct (Lambda.loadConfig env) as [cfg|m] eqn:Hc.
  2: { right. exists (Panicked m), []. now rewrite withCalls_nil. }
  destruct (Lambda.UnmarshalDetail env (Lambda.Detail event)) as [e|detail] eqn:Hd.
  { right. eexists _, []. now rewrite withCalls_nil. }
  destruct (String.prefix (Lambda.SecretPrefix cfg)
              (Lambda.SecretId (Lambda.RequestParameters detail))) eqn:Hp; simpl.
  2: { right. eexists _, []. now rewrite withCalls_nil. }
  unfold bind at 1. rewrite getSecretFromAWS_run.
  destruct (sourcePayload env _ _) as [e|data] eqn:Hs.
  { right. eexists _, _. split; [reflexivity|]. apply sourceCalls_no_sink. }
  unfold bind at 1. rewrite getKubernetesClient_run, withCalls_withCalls.
  destruct (clientOutcome env cfg) as [[e|client]|m] eqn:Hk.
  - right. eexists _, _. split; [reflexivity|].
    now rewrite List.filter_app, sourceCalls_no_sink, clientCalls_no_sink.
  - left. exists cfg, (Lambda.SecretId (Lambda.RequestParameters detail)), data, client.
    split; eauto.
  - right. eexists _, _. split; [reflexivity|].
    now rewrite List.filter_app, sourceCalls_no_sink, clientCalls_no_sink.
Qed.

Lemma handles_unique env event cfg1 n1 d1 c1 cfg2 n2 d2 c2 :
  handles env event cfg1 n1 d1 c1 -> handles env event cfg2 n2 d2 c2 ->
  cfg1 = cfg2 /\ n1 = n2 /\ d1 = d2 /\ c1 = c2.
Proof.
  intros [Hc1 (x1 & Hx1 & Hn1) _ Hs1 Hk1] [Hc2 (x2 & Hx2 & Hn2) _ Hs2 Hk2].
  assert (cfg1 = cfg2) as -> by congruence.
  assert (n1 = n2) as -> by congruence.
  repeat split; congruence.
Qed.

End Classification.

Local Open Scope list_scope.

(** ** The calls of the runs that reach the sink *)
Section SinkCalls.

Variables (env : Controller.Env) (req : Controller.Request) (w : World).
Variables (sm : SecretManager) (P : gmap string bytes).
Hypothesis Hfetch : fetches env req (managers w) sm P.

Lemma observed_key existing :
  wfStore (secrets w) ->
  observed (Controller.faults env) (sinkKey sm) w = inr existing ->
  keyOf existing = sinkKey sm.
Proof. intros Hwf Hobs. apply observed_inr in Hobs as [_ Hs]. now apply Hwf. Qed.

Lemma callsOf_Reconcile_noop existing :
  observed (Controller.faults env) (sinkKey sm) w = inr existing ->
  Controller.needUpdate (Data existing) P = false ->
  callsOf (Controller.Reconcile env req) w = fetchCalls req sm.
Proof.
  intros Hobs Hno. eapply callsOf_withCalls.
  exact (Reconcile_noop env req w sm P Hfetch existing Hobs Hno).
Qed.

Lemma callsOf_Reconcile_update existing :
  observed (Controller.faults env) (sinkKey sm) w = inr existing ->
  Controller.needUpdate (Data existing) P = true ->
  callsOf (Controller.Reconcile env req) w =
    fetchCalls req sm ++ [UpdateSecret (setType SecretTypeOpaque (setData P existing))].
Proof.
  intros Hobs Hyes.
  pose proof (Reconcile_update env req w sm P Hfetch existing Hobs Hyes) as E.
  simpl in E. destruct (updateFault (Controller.faults env)).
  - eapply callsOf_withCalls, E.
  - destruct (secrets w !! keyOf existing).
    + eapply callsOf_withSecret, E.
    + eapply callsOf_withCalls, E.
Qed.

Lemma callsOf_Reconcile_create e :
  observed (Controller.faults env) (sinkKey sm) w = inl e ->
  IsNotFound e = true ->
  callsOf (Controller.Reconcile env req) w =
    fetchCalls req sm ++ [CreateSecret (desiredSecret sm P)].
Proof.
  intros Hobs Hnf.
  pose proof (Reconcile_create env req w sm P Hfetch e Hobs Hnf) as E.
  simpl in E. destruct (createFault (Controller.faults env)).
  - eapply callsOf_withCalls, E.
  - destruct (secrets w !! sinkKey sm).
    + eapply callsOf_withCalls, E.
    + eapply callsOf_withSecret, E.
Qed.

Lemma callsOf_Reconcile_sink_error e :
  observed (Controller.faults env) (sinkKey sm) w = inl e ->
  IsNotFound e = false ->
  callsOf (Controller.Reconcile env req) w = fetchCalls req sm.
Proof.
  intros Hobs Hnf. eapply callsOf_withCalls.
  exact (Reconcile_sink_error env req w sm P Hfetch e Hobs Hnf).
Qed.

End SinkCalls.

Section HandlerSinkCalls.

Variables (env : Lambda.Env) (event : Lambda.CloudWatchEvent) (w : World).
Variables (cfg : Lambda.Config) (secretName : string).
Variables (data : gmap string bytes) (client : Lambda.Clientset).
Hypothesis Hhandles : handles env event cfg secretName data client.

Local Abbreviation before :=
  (sourceCalls env (Lambda.Region cfg) secretName ++ clientCalls env cfg).

Lemma before_no_write : writes before = [].
Proof.
  unfold writes. rewrite List.filter_app.
  assert (forall cs, List.filter isSinkCall cs = [] -> List.filter isWrite cs = []) as Hsub.
  { induction cs as [|c cs IH]; [reflexivity|]. simpl.
    destruct c; simpl; try discriminate; auto. }
  now rewrite (Hsub _ (sourceCalls_no_sink _ _ _)), (Hsub _ (clientCalls_no_sink _ _)).
Qed.

Lemma HandleRequest_present existing :
  observed (Lambda.faults env) (Lambda.Namespace cfg, secretName) w = inr existing ->
  let updated := setData data existing in
  let cs := before ++ [GetSecret (Lambda.Namespace cfg, secretName); UpdateSecret updated] in
  Lambda.HandleRequest env event w =
    match updateFault (Lambda.faults env) with
    | Some e =>
      (Returned (updateFailure (Some (Errorf "failed to update secret: " e))),
       withCalls w cs)
    | None =>
      match secrets w !! keyOf existing with
      | Some _ => (Returned None, withSecret w updated cs)
      | None =>
        (Returned (updateFailure (Some (Errorf "failed to update secret: "
                                          (NewNotFound "secrets" (Name (Meta existing)))))),
         withCalls w cs)
      end
    end.
Proof.
  intros Hobs. simpl.
  rewrite (HandleRequest_handles _ _ _ _ _ _ _ Hhandles).
  rewrite (updateKubernetesSecret_present env client _ _ data _ existing);
    [|now rewrite observed_withCalls].
  simpl. destruct (updateFault (Lambda.faults env)).
  - now rewrite withCalls_withCalls.
  - destruct (secrets w !! keyOf existing).
    + now rewrite withSecret_withCalls.
    + now rewrite withCalls_withCalls.
Qed.

Lemma HandleRequest_absent e :
  observed (Lambda.faults env) (Lambda.Namespace cfg, secretName) w = inl e ->
  let created := labelledSecret (Lambda.Namespace cfg) secretName data in
  let cs := before ++ [GetSecret (Lambda.Namespace cfg, secretName); CreateSecret created] in
  Lambda.HandleRequest env event w =
    match createFault (Lambda.faults env) with
    | Some e' =>
      (Returned (updateFailure (Some (Errorf "failed to create secret: " e'))),
       withCalls w cs)
    | None =>
      match secrets w !! (Lambda.Namespace cfg, secretName) with
      | Some _ =>
        (Returned (updateFailure (Some (Errorf "failed to create secret: "
                                          (NewAlreadyExists "secrets" secretName)))),
         withCalls w cs)
      | None => (Returned None, withSecret w created cs)
      end
    end.
Proof.
  intros Hobs. simpl.
  rewrite (HandleRequest_handles _ _ _ _ _ _ _ Hhandles).
  rewrite (updateKubernetesSecret_absent env client _ _ data _ e);
    [|now rewrite observed_withCalls].
  simpl. destruct (createFault (Lambda.faults env)).
  - now rewrite withCalls_withCalls.
  - destruct (secrets w !! (Lambda.Namespace cfg, secretName)).
    + now rewrite withCalls_withCalls.
    + now rewrite withSecret_withCalls.
Qed.

Lemma callsOf_HandleRequest_present existing :
  observed (Lambda.faults env) (Lambda.Namespace cfg, secretName) w = inr existing ->
  callsOf (Lambda.HandleRequest env event) w =
    before ++ [GetSecret (Lambda.Namespace cfg, secretName);
               UpdateSecret (setData data existing)].
Proof.
  intros Hobs. pose proof (HandleRequest_present existing Hobs) as E.
  simpl in E. destruct (updateFault (Lambda.faults env)).
  - eapply callsOf_withCalls, E.
  - destruct (secrets w !! keyOf existing).
    + eapply callsOf_withSecret, E.
    + eapply callsOf_withCalls, E.
Qed.

Lemma callsOf_HandleRequest_absent e :
  observed (Lambda.faults env) (Lambda.Namespace cfg, secretName) w = inl e ->
  callsOf (Lambda.HandleRequest env event) w =
    before ++ [GetSecret (Lambda.Namespace cfg, secretName);
               CreateSecret (labelledSecret (Lambda.Namespace cfg) secretName data)].
Proof.
  intros Hobs. pose proof (HandleRequest_absent e Hobs) as E.
  simpl in E. destruct (createFault (Lambda.faults env)).
  - eapply callsOf_withCalls, E.
  - destruct (secrets w !! (Lambda.Namespace cfg, secretName)).
    + eapply callsOf_withCalls, E.
    + eapply callsOf_withSecret, E.
Qed.

End HandlerSinkCalls.

(** ** Facts about the sample inputs *)
Section SampleFacts.

Lemma sample_fetches w :
  managers w = Sample.bindings ->
  fetches Sample.env Sample.request (managers w) Sample.binding Sample.payload.
Proof.
  intros ->. split; try reflexivity.
  eexists. split; [reflexivity|]. vm_compute. reflexivity.
Qed.

Lemma sample_handles :
  handles Sample.handlerOk (Sample.eventFor "eks-sync-db")
    Sample.config "eks-sync-db" Sample.payload Sample.client.
Proof.
  split; try (vm_compute; reflexivity).
  exists (Sample.detailOf "eks-sync-db"). split; vm_compute; reflexivity.
Qed.

Lemma wfStore_empty : wfStore ∅.
Proof. intros k s H. now rewrite lookup_empty in H. Qed.

Lemma wfStore_singleton s : wfStore {[ keyOf s := s ]}.
Proof.
  intros k s' H. apply lookup_singleton_Some in H as [<- <-]. reflexivity.
Qed.

End SampleFacts.

(** ** The claims *)

Lemma writes_app (a b : list Call) : writes (a ++ b) = writes a ++ writes b.
Proof. apply List.filter_app. Qed.

Lemma writes_fetchCalls req sm : writes (fetchCalls req sm) = [].
Proof. reflexivity. Qed.

(** C1, as amended. In the reconciler, when the sink holds a secret for the
    identity, an update is decided exactly when the sizes of the two key
    sets differ or some key of the desired payload is missing from the
    observed payload or holds other bytes there; no write is decided
    exactly when the two payloads are equal as maps, and then the store is
    left as it was. The event handler does not compare: whenever the sink
    holds a secret for the identity it writes an update with the desired
    payload. *)
Theorem decide_by_difference :
  (forall env req w sm P existing,
     fetches env req (managers w) sm P ->
     observed (Controller.faults env) (sinkKey sm) w = inr existing ->
     let d := decision (callsOf (Controller.Reconcile env req) w) in
     (d = Some Update <->
        (size (Data existing) <> size P \/
         exists k v, P !! k = Some v /\ Data existing !! k <> Some v)) /\
     (d = Some NoOp <-> Data existing = P) /\
     (d = Some NoOp -> secrets (snd (Controller.Reconcile env req w)) = secrets w)) /\
  (forall env event cfg secretName data client w existing,
     handles env event cfg secretName data client ->
     observed (Lambda.faults env) (Lambda.Namespace cfg, secretName) w = inr existing ->
     decision (callsOf (Lambda.HandleRequest env event) w) = Some Update /\
     writes (callsOf (Lambda.HandleRequest env event) w)
       = [UpdateSecret (setData data existing)]).
Proof.
  split.
  - intros env req w sm P existing Hf Hobs d.
    destruct (Controller.needUpdate (Data existing) P) eqn:E.
    + assert (d = Some Update) as Hd.
      { unfold d. rewrite (callsOf_Reconcile_update env req w sm P Hf existing Hobs E).
        reflexivity. }
      rewrite Hd. split; [|split].
      * split; [intros _; now apply needUpdate_true|reflexivity].
      * split; [discriminate|]. intros Heq. apply needUpdate_false in Heq. congruence.
      * discriminate.
    + assert (d = Some NoOp) as Hd.
      { unfold d. rewrite (callsOf_Reconcile_noop env req w sm P Hf existing Hobs E).
        reflexivity. }
      rewrite Hd. split; [|split].
      * split; [discriminate|]. intros H. apply needUpdate_true in H. congruence.
      * split; [intros _; now apply needUpdate_false|reflexivity].
      * intros _. now rewrite (Reconcile_noop env req w sm P Hf existing Hobs E).
  - intros env event cfg secretName data client w existing Hh Hobs.
    rewrite (callsOf_HandleRequest_present env event w cfg secretName data client Hh
               existing Hobs).
    unfold decision. rewrite writes_app, before_no_write. split; reflexivity.
Qed.

(** Both parts of [decide_by_difference] at sample inputs: the reconciler
    finds a hand-made secret with an old password and decides to update;
    the handler finds a secret in step and updates all the same. *)
Lemma decide_by_difference_witness :
  decision (callsOf (Controller.Reconcile Sample.env Sample.request) Sample.handMadeWorld)
    = Some Update /\
  decision (callsOf (Lambda.HandleRequest Sample.handlerOk (Sample.eventFor "eks-sync-db"))
              Sample.syncedWorld)
    = Some Update.
Proof.
  split.
  - apply (proj1 decide_by_difference Sample.env Sample.request Sample.handMadeWorld
             Sample.binding Sample.payload Sample.handMade).
    + apply sample_fetches. reflexivity.
    + reflexivity.
    + right. exists "password", (bytes_of_string "s3cr3t"). split; [reflexivity|].
      vm_compute. discriminate.
  - apply (proj2 decide_by_difference Sample.handlerOk (Sample.eventFor "eks-sync-db")
             Sample.config "eks-sync-db" Sample.payload Sample.client
             Sample.syncedWorld Sample.synced).
    + apply sample_handles.
    + reflexivity.
Defined.

(** C1 fails as stated: the handler finds a sink secret whose payload is
    byte for byte the desired payload, and still decides an update and
    writes it. *)
Lemma handler_writes_equal_payload :
  sourcePayload Sample.handlerOk "us-east-1" "eks-sync-db" = inr (Data Sample.synced) /\
  decision (callsOf (Lambda.HandleRequest Sample.handlerOk (Sample.eventFor "eks-sync-db"))
              Sample.syncedWorld)
    = Some Update /\
  writes (callsOf (Lambda.HandleRequest Sample.handlerOk (Sample.eventFor "eks-sync-db"))
            Sample.syncedWorld)
    = [UpdateSecret Sample.synced].
Proof. repeat split; vm_compute; reflexivity. Qed.

(** C2. When the read of the sink reports NotFound, the decision is to
    create; the secret that is submitted sits under the identity and its
    payload is the desired payload fetched from the source; and when the
    sink accepts the creation, the run ends without error and the sink
    holds a secret with exactly that payload. This holds for the
    reconciler and for the event handler. *)
Theorem create_on_absence :
  (forall env req w sm P e,
     fetches env req (managers w) sm P ->
     observed (Controller.faults env) (sinkKey sm) w = inl e ->
     IsNotFound e = true ->
     decision (callsOf (Controller.Reconcile env req) w) = Some Create /\
     (exists s, writes (callsOf (Controller.Reconcile env req) w) = [CreateSecret s] /\
                keyOf s = sinkKey sm /\ Data s = P) /\
     (createFault (Controller.faults env) = None -> secrets w !! sinkKey sm = None ->
      snd (fst (Controller.Reconcile env req w)) = None /\
      exists s, secrets (snd (Controller.Reconcile env req w)) !! sinkKey sm = Some s /\
                Data s = P)) /\
  (forall env event cfg secretName data client w e,
     handles env event cfg secretName data client ->
     observed (Lambda.faults env) (Lambda.Namespace cfg, secretName) w = inl e ->
     IsNotFound e = true ->
     decision (callsOf (Lambda.HandleRequest env event) w) = Some Create /\
     (exists s, writes (callsOf (Lambda.HandleRequest env event) w) = [CreateSecret s] /\
                keyOf s = (Lambda.Namespace cfg, secretName) /\ Data s = data) /\
     (createFault (Lambda.faults env) = None ->
      secrets w !! (Lambda.Namespace cfg, secretName) = None ->
      fst (Lambda.HandleRequest env event w) = Returned None /\
      exists s, secrets (snd (Lambda.HandleRequest env event w))
                  !! (Lambda.Namespace cfg, secretName) = Some s /\
                Data s = data)).
Proof.
  split.
  - intros env req w sm P e Hf Hobs Hnf.
    rewrite (callsOf_Reconcile_create env req w sm P Hf e Hobs Hnf).
    split; [reflexivity|]. split.
    + exists (desiredSecret sm P). repeat split.
    + intros Hc Hs. pose proof (Reconcile_create env req w sm P Hf e Hobs Hnf) as E.
      simpl in E. rewrite Hc, Hs in E. rewrite E. simpl. split; [reflexivity|].
      exists (desiredSecret sm P). split; [|reflexivity].
      apply lookup_insert_eq.
  - intros env event cfg secretName data client w e Hh Hobs _.
    rewrite (callsOf_HandleRequest_absent env event w cfg secretName data client Hh e Hobs).
    unfold decision. rewrite writes_app, before_no_write. simpl.
    split; [reflexivity|]. split.
    + exists (labelledSecret (Lambda.Namespace cfg) secretName data). repeat split.
    + intros Hc Hs.
      pose proof (HandleRequest_absent env event w cfg secretName data client Hh e Hobs) as E.
      simpl in E. rewrite Hc, Hs in E. rewrite E. simpl. split; [reflexivity|].
      exists (labelledSecret (Lambda.Namespace cfg) secretName data). split; [|reflexivity].
      apply lookup_insert_eq.
Qed.

(** Both parts of [create_on_absence] at sample inputs: a sink that holds
    no secret yet. *)
Lemma create_on_absence_witness :
  (snd (fst (Controller.Reconcile Sample.env Sample.request Sample.freshWorld)) = None /\
   exists s, secrets (snd (Controller.Reconcile Sample.env Sample.request Sample.freshWorld))
               !! ("prod", "db-credentials") = Some s /\
             Data s = Sample.payload) /\
  (fst (Lambda.HandleRequest Sample.handlerOk (Sample.eventFor "eks-sync-db") (world ∅ ∅))
     = Returned None /\
   exists s, secrets (snd (Lambda.HandleRequest Sample.handlerOk
                             (Sample.eventFor "eks-sync-db") (world ∅ ∅)))
               !! ("default", "eks-sync-db") = Some s /\
             Data s = Sample.payload).
Proof.
  split.
  - apply (proj1 create_on_absence Sample.env Sample.request Sample.freshWorld
             Sample.binding Sample.payload (NewNotFound "secrets" "db-credentials")).
    + apply sample_fetches. reflexivity.
    + reflexivity.
    + reflexivity.
    + reflexivity.
    + reflexivity.
  - apply (proj2 create_on_absence Sample.handlerOk (Sample.eventFor "eks-sync-db")
             Sample.config "eks-sync-db" Sample.payload Sample.client (world ∅ ∅)
             (NewNotFound "secrets" "eks-sync-db")).
    + apply sample_handles.
    + reflexivity.
    + reflexivity.
    + reflexivity.
    + reflexivity.
Defined.

(** A run that finds the desired payload in the sink writes nothing. *)
Lemma Reconcile_in_step env req w sm P s :
  fetches env req (managers w) sm P ->
  getFault (Controller.faults env) = None ->
  secrets w !! sinkKey sm = Some s ->
  Data s = P ->
  Controller.Reconcile env req w = ((requeued, None), withCalls w (fetchCalls req sm)).
Proof.
  intros Hf Hg Hs Hd.
  apply (Reconcile_noop env req w sm P Hf s).
  - now apply observed_present.
  - now apply needUpdate_false.
Qed.

(** C3. Two runs in succession for the same binding, with a source that
    answers with the payload P both times: when the first run ends without
    error and the read of the sink is answered in the second, the second
    run decides to write nothing, ends without error, and leaves the
    stores exactly as the first run left them; the sink then holds a
    secret with payload P. *)
Theorem reconcile_twice_noop env1 env2 req w sm P :
  wfStore (secrets w) ->
  fetches env1 req (managers w) sm P ->
  fetches env2 req (managers w) sm P ->
  getFault (Controller.faults env2) = None ->
  snd (fst (Controller.Reconcile env1 req w)) = None ->
  let w1 := snd (Controller.Reconcile env1 req w) in
  let w2 := snd (Controller.Reconcile env2 req w1) in
  decision (callsOf (Controller.Reconcile env2 req) w1) = Some NoOp /\
  fst (Controller.Reconcile env2 req w1) = (requeued, None) /\
  secrets w2 = secrets w1 /\
  managers w2 = managers w1 /\
  exists s, secrets w1 !! sinkKey sm = Some s /\ Data s = P.
Proof.
  intros Hwf Hf1 Hf2 Hg2 Hok w1 w2.
  assert (managers w1 = managers w /\
          exists s, secrets w1 !! sinkKey sm = Some s /\ Data s = P) as [Hm (s & Hs & Hd)].
  { unfold w1. clear w1 w2.
    destruct (observed (Controller.faults env1) (sinkKey sm) w) as [e|existing] eqn:Hobs.
    - destruct (IsNotFound e) eqn:Hnf.
      + pose proof (Reconcile_create env1 req w sm P Hf1 e Hobs Hnf) as E. simpl in E.
        rewrite E in *.
        destruct (createFault (Controller.faults env1)); [discriminate|].
        destruct (secrets w !! sinkKey sm); [discriminate|].
        simpl. split; [reflexivity|]. exists (desiredSecret sm P).
        split; [apply lookup_insert_eq|reflexivity].
      + rewrite (Reconcile_sink_error env1 req w sm P Hf1 e Hobs Hnf) in Hok. discriminate.
    - pose proof (observed_key env1 w sm existing Hwf Hobs) as Hkey.
      destruct (Controller.needUpdate (Data existing) P) eqn:E.
      + pose proof (Reconcile_update env1 req w sm P Hf1 existing Hobs E) as R.
        simpl in R. rewrite R in *.
        destruct (updateFault (Controller.faults env1)); [discriminate|].
        destruct (secrets w !! keyOf existing); [|discriminate].
        simpl. split; [reflexivity|].
        exists (setType SecretTypeOpaque (setData P existing)). split; [|reflexivity].
        unfold keyOf in *. simpl. rewrite Hkey. apply lookup_insert_eq.
      + rewrite (Reconcile_noop env1 req w sm P Hf1 existing Hobs E). simpl.
        split; [reflexivity|]. exists existing. split.
        * now apply observed_inr in Hobs as [_ ?].
        * now apply needUpdate_false. }
  rewrite <- Hm in Hf2.
  pose proof (Reconcile_in_step env2 req w1 sm P s Hf2 Hg2 Hs Hd) as R.
  unfold w2. rewrite (callsOf_withCalls _ _ _ _ R), R. simpl.
  repeat split; eauto.
Qed.

(** [reconcile_twice_noop] at a sample input: the first run replaces the
    old password of the hand-made secret, the second run writes nothing. *)
Lemma reconcile_twice_noop_witness :
  decision (callsOf (Controller.Reconcile Sample.env Sample.request)
              (snd (Controller.Reconcile Sample.env Sample.request Sample.handMadeWorld)))
    = Some NoOp.
Proof.
  apply (reconcile_twice_noop Sample.env Sample.env Sample.request Sample.handMadeWorld
           Sample.binding Sample.payload).
  - apply (wfStore_singleton Sample.handMade).
  - apply sample_fetches. reflexivity.
  - apply sample_fetches. reflexivity.
  - reflexivity.
  - vm_compute. reflexivity.
Defined.

(** The handler names the step that failed in front of the error. *)
Lemma Is_Errorf prefix e : Is (Errorf prefix e) e.
Proof. unfold Errorf. apply Is_inner, Is_here. Qed.

(** An error wrapped twice is not the error itself. *)
Lemma wrapped_twice_differs e : forall m m', WrapError m (WrapError m' e) <> e.
Proof.
  induction e as [| |m0 e0 IH]; intros m m' H; try discriminate.
  injection H as _ H. exact (IH _ _ H).
Qed.

(** C4, as amended. When the call that fetches the source secret answers
    with an error, no call reaches the sink, neither a read nor a write,
    and the stores are left as they were. The reconciler returns that
    error unchanged. The event handler returns it wrapped: the error it
    returns carries the messages of the two steps that failed in front and
    keeps the source's error at the end of its chain. *)
Theorem source_error_stops_run :
  (forall env req w sm err,
     Controller.managerFault env = None ->
     managers w !! Controller.NamespacedName req = Some sm ->
     Controller.LoadDefaultConfig env Controller.region = None ->
     Controller.GetSecretValue env Controller.region (SourceSecretName (Spec sm))
       = inl err ->
     fst (Controller.Reconcile env req w) = (Controller.emptyResult, Some err) /\
     List.filter isSinkCall (callsOf (Controller.Reconcile env req) w) = [] /\
     secrets (snd (Controller.Reconcile env req w)) = secrets w) /\
  (forall env event w cfg detail err,
     Lambda.loadConfig env = Returned cfg ->
     Lambda.UnmarshalDetail env (Lambda.Detail event) = inr detail ->
     let secretName := Lambda.SecretId (Lambda.RequestParameters detail) in
     String.prefix (Lambda.SecretPrefix cfg) secretName = true ->
     Lambda.LoadDefaultConfig env (Lambda.Region cfg) = None ->
     Lambda.GetSecretValue env (Lambda.Region cfg) secretName = inl err ->
     let returned :=
       Errorf "failed to get secret from AWS: "
         (Errorf "failed to get secret value: " err) in
     fst (Lambda.HandleRequest env event w) = Returned (Some returned) /\
     Is returned err /\
     returned <> err /\
     List.filter isSinkCall (callsOf (Lambda.HandleRequest env event) w) = [] /\
     secrets (snd (Lambda.HandleRequest env event w)) = secrets w).
Proof.
  split.
  - intros env req w sm err H1 H2 H3 H4.
    assert (Controller.Reconcile env req w =
            ((Controller.emptyResult, Some err),
             withCalls w [GetManager (Controller.NamespacedName req);
                          AwsGetSecretValue Controller.region
                            (SourceSecretName (Spec sm))])) as E.
    { unfold Controller.Reconcile, getManager, bind, record, ret. simpl.
      rewrite H1, H2, H3. simpl. rewrite H4. unfold withCalls. simpl.
      now rewrite <- app_assoc. }
    rewrite (callsOf_withCalls _ _ _ _ E), E. repeat split.
  - intros env event w cfg detail err Hc Hd secretName Hp Hl Hg returned.
    assert (Lambda.HandleRequest env event w =
            (Returned (Some returned),
             withCalls w [AwsGetSecretValue (Lambda.Region cfg) secretName])) as E.
    { unfold Lambda.HandleRequest. rewrite Hc, Hd. fold secretName. rewrite Hp. simpl.
      unfold Lambda.getSecretFromAWS, bind, record, ret. rewrite Hl. simpl.
      now rewrite Hg. }
    rewrite (callsOf_withCalls _ _ _ _ E), E. repeat split.
    + apply Is_inner, Is_Errorf.
    + apply wrapped_twice_differs.
Qed.

(** Both parts of [source_error_stops_run] at sample inputs: the source is
    throttled. *)
Lemma source_error_stops_run_witness :
  fst (Controller.Reconcile Sample.envThrottled Sample.request Sample.freshWorld)
    = (Controller.emptyResult, Some Sample.throttled) /\
  fst (Lambda.HandleRequest (Sample.handlerEnv (inl Sample.throttled) noFaults)
         (Sample.eventFor "eks-sync-db") Sample.syncedWorld)
    = Returned (Some (Errorf "failed to get secret from AWS: "
                        (Errorf "failed to get secret value: " Sample.throttled))).
Proof.
  split.
  - apply (proj1 source_error_stops_run Sample.envThrottled Sample.request
             Sample.freshWorld Sample.binding Sample.throttled); reflexivity.
  - apply (proj2 source_error_stops_run (Sample.handlerEnv (inl Sample.throttled) noFaults)
             (Sample.eventFor "eks-sync-db") Sample.syncedWorld Sample.config
             (Sample.detailOf "eks-sync-db") Sample.throttled); vm_compute; reflexivity.
Defined.

(** C4 fails as stated: the source fails with a throttling error, and the
    error that the handler returns is another value, with another
    message. *)
Lemma handler_wraps_source_error :
  Lambda.GetSecretValue (Sample.handlerEnv (inl Sample.throttled) noFaults)
    "us-east-1" "eks-sync-db" = inl Sample.throttled /\
  fst (Lambda.HandleRequest (Sample.handlerEnv (inl Sample.throttled) noFaults)
         (Sample.eventFor "eks-sync-db") Sample.syncedWorld)
    <> Returned (Some Sample.throttled).
Proof. split; [reflexivity|]. vm_compute. discriminate. Qed.

(** The reconciler tells the two kinds of read error apart: NotFound leads
    to a creation, any other error ends the run with that error, without a
    write and with the stores as they were. *)
Lemma Reconcile_read_error env req w sm P e :
  fetches env req (managers w) sm P ->
  observed (Controller.faults env) (sinkKey sm) w = inl e ->
  if IsNotFound e
  then decision (callsOf (Controller.Reconcile env req) w) = Some Create
  else fst (Controller.Reconcile env req w) = (Controller.emptyResult, Some e) /\
       writes (callsOf (Controller.Reconcile env req) w) = [] /\
       secrets (snd (Controller.Reconcile env req w)) = secrets w.
Proof.
  intros Hf Hobs. destruct (IsNotFound e) eqn:Hnf.
  - now rewrite (callsOf_Reconcile_create env req w sm P Hf e Hobs Hnf).
  - rewrite (callsOf_Reconcile_sink_error env req w sm P Hf e Hobs Hnf).
    now rewrite (Reconcile_sink_error env req w sm P Hf e Hobs Hnf).
Qed.

(** The handler does not: whatever the error of the read, it goes on to
    create. *)
Lemma HandleRequest_read_error env event cfg secretName data client w e :
  handles env event cfg secretName data client ->
  observed (Lambda.faults env) (Lambda.Namespace cfg, secretName) w = inl e ->
  writes (callsOf (Lambda.HandleRequest env event) w)
    = [CreateSecret (labelledSecret (Lambda.Namespace cfg) secretName data)].
Proof.
  intros Hh Hobs.
  rewrite (callsOf_HandleRequest_absent env event w cfg secretName data client Hh e Hobs).
  now rewrite writes_app, before_no_write.
Qed.

(** C5, at the input where the handler departs from it. The sink holds the
    secret, and the read of it is refused with a Forbidden error, which is
    not NotFound. The handler takes the secret for absent and submits a
    creation; the sink refuses it, the secret being there; the handler
    returns that refusal, and the Forbidden error is lost. *)
Theorem handler_creates_after_forbidden_read :
  IsNotFound Sample.forbidden = false /\
  observed Sample.forbiddenRead ("default", "eks-sync-db") Sample.syncedWorld
    = inl Sample.forbidden /\
  writes (callsOf (Lambda.HandleRequest
                     (Sample.handlerEnv Sample.credentialsAnswer Sample.forbiddenRead)
                     (Sample.eventFor "eks-sync-db"))
            Sample.syncedWorld)
    = [CreateSecret (labelledSecret "default" "eks-sync-db" Sample.payload)] /\
  fst (Lambda.HandleRequest
         (Sample.handlerEnv Sample.credentialsAnswer Sample.forbiddenRead)
         (Sample.eventFor "eks-sync-db") Sample.syncedWorld)
    = Returned (Some (Errorf "failed to update kubernetes secret: "
                        (Errorf "failed to create secret: "
                           (NewAlreadyExists "secrets" "eks-sync-db")))).
Proof. repeat split; vm_compute; reflexivity. Qed.

(** C6, as amended. In the reconciler, when the text of the source secret
    does not decode into a mapping from strings to strings, the run ends
    with the decoder's error, before any call on the sink and with the
    stores as they were. In the event handler, when the text does not
    decode into an object, the source step does not fail: it answers with
    a payload of one field, named secret, that holds the raw text. *)
Theorem undecodable_text :
  (forall env req w sm getOut text err,
     Controller.managerFault env = None ->
     managers w !! Controller.NamespacedName req = Some sm ->
     Controller.LoadDefaultConfig env Controller.region = None ->
     Controller.GetSecretValue env Controller.region (SourceSecretName (Spec sm))
       = inr getOut ->
     SecretString getOut = Some text ->
     Controller.Unmarshal env text = inl err ->
     fst (Controller.Reconcile env req w) = (Controller.emptyResult, Some err) /\
     List.filter isSinkCall (callsOf (Controller.Reconcile env req) w) = [] /\
     secrets (snd (Controller.Reconcile env req w)) = secrets w) /\
  (forall env region secretName result text err,
     Lambda.LoadDefaultConfig env region = None ->
     Lambda.GetSecretValue env region secretName = inr result ->
     SecretString result = Some text ->
     Lambda.UnmarshalObject env text = inl err ->
     sourcePayload env region secretName = inr {[ "secret" := bytes_of_string text ]}).
Proof.
  split.
  - intros env req w sm getOut text err H1 H2 H3 H4 Ht Hu.
    assert (Controller.Reconcile env req w =
            ((Controller.emptyResult, Some err),
             withCalls w [GetManager (Controller.NamespacedName req);
                          AwsGetSecretValue Controller.region
                            (SourceSecretName (Spec sm))])) as E.
    { unfold Controller.Reconcile, getManager, bind, record, ret. simpl.
      rewrite H1, H2, H3. simpl. rewrite H4.
      unfold Controller.secretDataOf. rewrite Ht, Hu. unfold withCalls. simpl.
      now rewrite <- app_assoc. }
    rewrite (callsOf_withCalls _ _ _ _ E), E. repeat split.
  - intros env region secretName result text err Hl Hg Ht Hu.
    unfold sourcePayload, Lambda.getSecretFromAWS, bind, record, ret.
    rewrite Hl. simpl. rewrite Hg, Ht, Hu. reflexivity.
Qed.

(** Both parts of [undecodable_text] at sample inputs: the source holds a
    text that is not JSON. *)
Lemma undecodable_text_witness :
  fst (Controller.Reconcile Sample.envRaw Sample.request Sample.freshWorld)
    = (Controller.emptyResult, Some Sample.syntaxError) /\
  sourcePayload (Sample.handlerEnv Sample.rawAnswer noFaults) "us-east-1" "eks-sync-db"
    = inr {[ "secret" := bytes_of_string Sample.rawText ]}.
Proof.
  split.
  - apply (proj1 undecodable_text Sample.envRaw Sample.request Sample.freshWorld
             Sample.binding
             {| SecretString := Some Sample.rawText; SecretBinary := None |}
             Sample.rawText Sample.syntaxError); reflexivity.
  - apply (proj2 undecodable_text (Sample.handlerEnv Sample.rawAnswer noFaults)
             "us-east-1" "eks-sync-db"
             {| SecretString := Some Sample.rawText; SecretBinary := None |}
             Sample.rawText Sample.syntaxError); reflexivity.
Defined.

(** C6 fails as stated: the source holds a text that is not JSON; the
    handler ends without error and the sink now holds a secret whose one
    field is that raw text. *)
Lemma handler_wraps_raw_text :
  Lambda.UnmarshalObject (Sample.handlerEnv Sample.rawAnswer noFaults) Sample.rawText
    = inl Sample.syntaxError /\
  fst (Lambda.HandleRequest (Sample.handlerEnv Sample.rawAnswer noFaults)
         (Sample.eventFor "eks-sync-db") (world ∅ ∅))
    = Returned None /\
  Data <$> (secrets (snd (Lambda.HandleRequest (Sample.handlerEnv Sample.rawAnswer noFaults)
                            (Sample.eventFor "eks-sync-db") (world ∅ ∅)))
              !! ("default", "eks-sync-db"))
    = Some {[ "secret" := bytes_of_string "not json" ]}.
Proof. repeat split; vm_compute; reflexivity. Qed.

(** ** Which writes a run can hold *)
Section WritesOfRuns.

Lemma write_among (c : Call) (cs : list Call) :
  isWrite c = true -> c ∈ cs -> c ∈ writes cs.
Proof.
  intros Hc Hin. apply list_elem_of_In. apply List.filter_In.
  split; [now apply list_elem_of_In|assumption].
Qed.

Lemma no_sink_call_no_write (c : Call) (cs : list Call) :
  List.filter isSinkCall cs = [] -> isWrite c = true -> c ∈ cs -> False.
Proof.
  intros Hcs Hc Hin.
  assert (In c (List.filter isSinkCall cs)) as H.
  { apply List.filter_In. split; [now apply list_elem_of_In|]. now destruct c. }
  now rewrite Hcs in H.
Qed.

Lemma only_write (c x : Call) (cs : list Call) :
  writes cs = [x] -> isWrite c = true -> c ∈ cs -> c = x.
Proof.
  intros Hcs Hc Hin. pose proof (write_among c cs Hc Hin) as H.
  rewrite Hcs in H. now apply list_elem_of_singleton in H.
Qed.

Lemma no_write (c : Call) (cs : list Call) :
  writes cs = [] -> isWrite c = true -> c ∈ cs -> False.
Proof.
  intros Hcs Hc Hin. pose proof (write_among c cs Hc Hin) as H.
  rewrite Hcs in H. now apply not_elem_of_nil in H.
Qed.

(** The writes of a run of the reconciler: at most one, and which. *)
Lemma Reconcile_write env req w c :
  wfStore (secrets w) ->
  isWrite c = true ->
  c ∈ callsOf (Controller.Reconcile env req) w ->
  exists sm P,
    fetches env req (managers w) sm P /\
    ((exists e, observed (Controller.faults env) (sinkKey sm) w = inl e /\
                IsNotFound e = true /\ c = CreateSecret (desiredSecret sm P)) \/
     (exists existing,
        observed (Controller.faults env) (sinkKey sm) w = inr existing /\
        keyOf existing = sinkKey sm /\
        Controller.needUpdate (Data existing) P = true /\
        c = UpdateSecret (setType SecretTypeOpaque (setData P existing)))).
Proof.
  intros Hwf Hc Hin.
  destruct (Reconcile_cases env req w) as [(sm & P & Hf)|(err & cs & E & Hcs & _)].
  2: { rewrite (callsOf_withCalls _ _ _ _ E) in Hin.
       destruct (no_sink_call_no_write c cs Hcs Hc Hin). }
  exists sm, P. split; [assumption|].
  destruct (observed (Controller.faults env) (sinkKey sm) w) as [e|existing] eqn:Hobs.
  - destruct (IsNotFound e) eqn:Hnf.
    + left. exists e. split; [reflexivity|]. split; [assumption|].
      rewrite (callsOf_Reconcile_create env req w sm P Hf e Hobs Hnf) in Hin.
      refine (only_write c _ _ _ Hc Hin). reflexivity.
    + rewrite (callsOf_Reconcile_sink_error env req w sm P Hf e Hobs Hnf) in Hin.
      destruct (no_write c _ (writes_fetchCalls req sm) Hc Hin).
  - pose proof (observed_key env w sm existing Hwf Hobs) as Hkey.
    destruct (Controller.needUpdate (Data existing) P) eqn:E.
    + right. exists existing. split; [reflexivity|]. split; [assumption|].
      split; [assumption|].
      rewrite (callsOf_Reconcile_update env req w sm P Hf existing Hobs E) in Hin.
      refine (only_write c _ _ _ Hc Hin). reflexivity.
    + rewrite (callsOf_Reconcile_noop env req w sm P Hf existing Hobs E) in Hin.
      destruct (no_write c _ (writes_fetchCalls req sm) Hc Hin).
Qed.

(** The writes of a run of the handler: at most one, and which. *)
Lemma HandleRequest_write env event w c :
  wfStore (secrets w) ->
  isWrite c = true ->
  c ∈ callsOf (Lambda.HandleRequest env event) w ->
  exists cfg secretName data client,
    handles env event cfg secretName data client /\
    ((exists e, observed (Lambda.faults env) (Lambda.Namespace cfg, secretName) w = inl e /\
                c = CreateSecret (labelledSecret (Lambda.Namespace cfg) secretName data)) \/
     (exists existing,
        observed (Lambda.faults env) (Lambda.Namespace cfg, secretName) w = inr existing /\
        keyOf existing = (Lambda.Namespace cfg, secretName) /\
        c = UpdateSecret (setData data existing))).
Proof.
  intros Hwf Hc Hin.
  destruct (HandleRequest_cases env event w)
    as [(cfg & secretName & data & client & Hh)|(r & cs & E & Hcs)].
  2: { rewrite (callsOf_withCalls _ _ _ _ E) in Hin.
       destruct (no_sink_call_no_write c cs Hcs Hc Hin). }
  exists cfg, secretName, data, client. split; [assumption|].
  destruct (observed (Lambda.faults env) (Lambda.Namespace cfg, secretName) w)
    as [e|existing] eqn:Hobs.
  - left. exists e. split; [reflexivity|].
    apply (only_write c _ _ (HandleRequest_read_error _ _ _ _ _ _ _ _ Hh Hobs) Hc Hin).
  - right. exists existing.
    assert (keyOf existing = (Lambda.Namespace cfg, secretName)) as Hkey.
    { apply observed_inr in Hobs as [_ Hs]. now apply Hwf. }
    split; [reflexivity|]. split; [assumption|].
    rewrite (callsOf_HandleRequest_present env event w cfg secretName data client Hh
               existing Hobs) in Hin.
    refine (only_write c _ _ _ Hc Hin).
    now rewrite writes_app, before_no_write.
Qed.

End WritesOfRuns.

(** C7. Every update that a run submits for a secret of the sink is the
    stored secret with its data replaced and, in the reconciler, its type
    replaced as well: the metadata (name, namespace, uid, resource version,
    labels, annotations, owner references, finalizers), the immutable flag
    and the string data of the submitted object are those of the stored
    one. The handler leaves the type as it was too. After the run the
    store is as it was, or as it was with the submitted object in the
    place of the stored one. *)
Theorem update_keeps_other_fields :
  (forall env req w s',
     wfStore (secrets w) ->
     UpdateSecret s' ∈ callsOf (Controller.Reconcile env req) w ->
     exists existing P,
       secrets w !! keyOf s' = Some existing /\
       s' = setType SecretTypeOpaque (setData P existing) /\
       Meta s' = Meta existing /\
       Immutable s' = Immutable existing /\
       StringData s' = StringData existing /\
       (secrets (snd (Controller.Reconcile env req w)) = secrets w \/
        secrets (snd (Controller.Reconcile env req w)) = <[keyOf s' := s']> (secrets w))) /\
  (forall env event w s',
     wfStore (secrets w) ->
     UpdateSecret s' ∈ callsOf (Lambda.HandleRequest env event) w ->
     exists existing data,
       secrets w !! keyOf s' = Some existing /\
       s' = setData data existing /\
       Meta s' = Meta existing /\
       Immutable s' = Immutable existing /\
       StringData s' = StringData existing /\
       Type_ s' = Type_ existing /\
       (secrets (snd (Lambda.HandleRequest env event w)) = secrets w \/
        secrets (snd (Lambda.HandleRequest env event w)) = <[keyOf s' := s']> (secrets w))).
Proof.
  split.
  - intros env req w s' Hwf Hin.
    destruct (Reconcile_write env req w (UpdateSecret s') Hwf eq_refl Hin)
      as (sm & P & Hf & [(e & _ & _ & Hc)|(existing & Hobs & Hkey & E & Hc)]);
      [discriminate|].
    injection Hc as ->. exists existing, P.
    pose proof (Reconcile_update env req w sm P Hf existing Hobs E) as R. simpl in R.
    apply observed_inr in Hobs as [_ Hs].
    split; [unfold keyOf in *; simpl; now rewrite Hkey|].
    do 4 (split; [reflexivity|]).
    rewrite R. destruct (updateFault (Controller.faults env)); [now left|].
    destruct (secrets w !! keyOf existing); [now right|now left].
  - intros env event w s' Hwf Hin.
    destruct (HandleRequest_write env event w (UpdateSecret s') Hwf eq_refl Hin)
      as (cfg & secretName & data & client & Hh &
          [(e & _ & Hc)|(existing & Hobs & Hkey & Hc)]);
      [discriminate|].
    injection Hc as ->. exists existing, data.
    pose proof (HandleRequest_present env event w cfg secretName data client Hh
                  existing Hobs) as R. simpl in R.
    apply observed_inr in Hobs as [_ Hs].
    split; [unfold keyOf in *; simpl; now rewrite Hkey|].
    do 5 (split; [reflexivity|]).
    rewrite R. destruct (updateFault (Lambda.faults env)); [now left|].
    destruct (secrets w !! keyOf existing); [now right|now left].
Qed.

(** [update_keeps_other_fields] at sample inputs: the reconciler's update
    of the hand-made secret, and the handler's update of the secret that
    is in step. *)
Lemma update_keeps_other_fields_witness :
  (exists existing P,
     secrets Sample.handMadeWorld
       !! keyOf (setType SecretTypeOpaque (setData Sample.payload Sample.handMade))
       = Some existing /\
     setType SecretTypeOpaque (setData Sample.payload Sample.handMade)
       = setType SecretTypeOpaque (setData P existing) /\
     Meta (setType SecretTypeOpaque (setData Sample.payload Sample.handMade)) = Meta existing /\
     Immutable (setType SecretTypeOpaque (setData Sample.payload Sample.handMade))
       = Immutable existing /\
     StringData (setType SecretTypeOpaque (setData Sample.payload Sample.handMade))
       = StringData existing /\
     (secrets (snd (Controller.Reconcile Sample.env Sample.request Sample.handMadeWorld))
        = secrets Sample.handMadeWorld \/
      secrets (snd (Controller.Reconcile Sample.env Sample.request Sample.handMadeWorld))
        = <[keyOf (setType SecretTypeOpaque (setData Sample.payload Sample.handMade))
              := setType SecretTypeOpaque (setData Sample.payload Sample.handMade)]>
            (secrets Sample.handMadeWorld))) /\
  (exists existing data,
     secrets Sample.syncedWorld !! keyOf (setData Sample.payload Sample.synced)
       = Some existing /\
     setData Sample.payload Sample.synced = setData data existing /\
     Meta (setData Sample.payload Sample.synced) = Meta existing /\
     Immutable (setData Sample.payload Sample.synced) = Immutable existing /\
     StringData (setData Sample.payload Sample.synced) = StringData existing /\
     Type_ (setData Sample.payload Sample.synced) = Type_ existing /\
     (secrets (snd (Lambda.HandleRequest Sample.handlerOk (Sample.eventFor "eks-sync-db")
                      Sample.syncedWorld))
        = secrets Sample.syncedWorld \/
      secrets (snd (Lambda.HandleRequest Sample.handlerOk (Sample.eventFor "eks-sync-db")
                      Sample.syncedWorld))
        = <[keyOf (setData Sample.payload Sample.synced)
              := setData Sample.payload Sample.synced]> (secrets Sample.syncedWorld))).
Proof.
  split.
  - apply (proj1 update_keeps_other_fields Sample.env Sample.request Sample.handMadeWorld).
    + apply (wfStore_singleton Sample.handMade).
    + apply list_elem_of_In. vm_compute. do 3 right. left. reflexivity.
  - apply (proj2 update_keeps_other_fields Sample.handlerOk (Sample.eventFor "eks-sync-db")
             Sample.syncedWorld).
    + apply (wfStore_singleton Sample.synced).
    + apply list_elem_of_In. vm_compute. do 3 right. left. reflexivity.
Defined.

(** C8, as amended. Every secret that the event handler creates carries
    the label managed-by with the value aws-secrets-sync-lambda. A secret
    that the reconciler creates carries no label and no annotation; what
    marks it is its one owner reference, which names the binding as its
    controller. *)
Theorem created_secret_marks :
  (forall env event w s,
     wfStore (secrets w) ->
     CreateSecret s ∈ callsOf (Lambda.HandleRequest env event) w ->
     Labels (Meta s) !! "managed-by" = Some "aws-secrets-sync-lambda") /\
  (forall env req w s,
     wfStore (secrets w) ->
     CreateSecret s ∈ callsOf (Controller.Reconcile env req) w ->
     Labels (Meta s) = ∅ /\
     Annotations (Meta s) = ∅ /\
     exists sm,
       managers w !! Controller.NamespacedName req = Some sm /\
       OwnerReferences (Meta s) = [Controller.controllerRef sm] /\
       Controller (Controller.controllerRef sm) = Some true).
Proof.
  split.
  - intros env event w s Hwf Hin.
    destruct (HandleRequest_write env event w (CreateSecret s) Hwf eq_refl Hin)
      as (cfg & secretName & data & client & Hh &
          [(e & _ & Hc)|(existing & _ & _ & Hc)]);
      [|discriminate].
    injection Hc as ->. reflexivity.
  - intros env req w s Hwf Hin.
    destruct (Reconcile_write env req w (CreateSecret s) Hwf eq_refl Hin)
      as (sm & P & Hf & [(e & _ & _ & Hc)|(existing & _ & _ & _ & Hc)]);
      [|discriminate].
    injection Hc as ->. repeat split.
    exists sm. repeat split. now destruct Hf.
Qed.

(** Both parts of [created_secret_marks] at sample inputs: a sink that
    holds no secret yet. *)
Lemma created_secret_marks_witness :
  Labels (Meta (labelledSecret "default" "eks-sync-db" Sample.payload)) !! "managed-by"
    = Some "aws-secrets-sync-lambda" /\
  Labels (Meta (desiredSecret Sample.binding Sample.payload)) = ∅.
Proof.
  split.
  - apply (proj1 created_secret_marks Sample.handlerOk (Sample.eventFor "eks-sync-db")
             (world ∅ ∅)).
    + apply wfStore_empty.
    + apply list_elem_of_In. vm_compute. do 3 right. left. reflexivity.
  - apply (proj2 created_secret_marks Sample.env Sample.request Sample.freshWorld).
    + apply wfStore_empty.
    + apply list_elem_of_In. vm_compute. do 3 right. left. reflexivity.
Defined.

(** C8 fails as stated: the secret that the reconciler creates has neither
    a label nor an annotation. *)
Lemma reconciler_creates_unlabelled :
  exists s,
    writes (callsOf (Controller.Reconcile Sample.env Sample.request) Sample.freshWorld)
      = [CreateSecret s] /\
    Labels (Meta s) = ∅ /\
    Annotations (Meta s) = ∅.
Proof.
  exists (desiredSecret Sample.binding Sample.payload).
  repeat split; vm_compute; reflexivity.
Qed.

(** C9, as amended. A run of the reconciler that ends with an error
    returns the empty result, which asks for no requeue after a fixed
    time. A run that ends without error returns the result that asks for
    a requeue after 10 seconds when it got as far as the sink, and the
    empty result when it stopped because the binding was not found. *)
Theorem requeue_after_completed_run env req w :
  match fst (Controller.Reconcile env req w) with
  | (res, Some _) => res = Controller.emptyResult
  | (res, None) =>
    (res = requeued /\ exists sm P, fetches env req (managers w) sm P) \/
    (res = Controller.emptyResult /\
     callsOf (Controller.Reconcile env req) w = [GetManager (Controller.NamespacedName req)])
  end /\
  Controller.RequeueAfter requeued = (10 * 1000000000)%Z /\
  Controller.RequeueAfter Controller.emptyResult = 0%Z.
Proof.
  split; [|split; reflexivity].
  destruct (Reconcile_cases env req w) as [(sm & P & Hf)|(err & cs & E & _ & Hcs)].
  2: { rewrite (callsOf_withCalls _ _ _ _ E), E. simpl.
       destruct err; [reflexivity|]. right. split; [reflexivity|]. now apply Hcs. }
  destruct (observed (Controller.faults env) (sinkKey sm) w) as [e|existing] eqn:Hobs.
  - destruct (IsNotFound e) eqn:Hnf.
    + pose proof (Reconcile_create env req w sm P Hf e Hobs Hnf) as R. simpl in R.
      rewrite R. destruct (createFault (Controller.faults env)); [reflexivity|].
      destruct (secrets w !! sinkKey sm); [reflexivity|]. simpl. left. eauto.
    + now rewrite (Reconcile_sink_error env req w sm P Hf e Hobs Hnf).
  - destruct (Controller.needUpdate (Data existing) P) eqn:E.
    + pose proof (Reconcile_update env req w sm P Hf existing Hobs E) as R.
      simpl in R. rewrite R.
      destruct (updateFault (Controller.faults env)); [reflexivity|].
      destruct (secrets w !! keyOf existing); [|reflexivity]. simpl. left. eauto.
    + rewrite (Reconcile_noop env req w sm P Hf existing Hobs E). simpl. left. eauto.
Qed.

(** C9 fails as stated: the source is throttled, the run ends with that
    error, and the result asks for a requeue after no time at all, not
    after 10 seconds. *)
Lemma failed_run_requeues_after_zero :
  snd (fst (Controller.Reconcile Sample.envThrottled Sample.request Sample.freshWorld))
    = Some Sample.throttled /\
  Controller.RequeueAfter
    (fst (fst (Controller.Reconcile Sample.envThrottled Sample.request Sample.freshWorld)))
    = 0%Z /\
  Controller.RequeueAfter
    (fst (fst (Controller.Reconcile Sample.envThrottled Sample.request Sample.freshWorld)))
    <> (Second * 10)%Z.
Proof. repeat split; vm_compute; discriminate. Qed.

(** C10. For an event that names a secret whose id does not begin with the
    configured prefix, the handler returns nil at once: the world is left
    exactly as it was, with no call made, neither to the source nor to the
    sink. *)
Theorem other_prefix_is_skipped env event w cfg detail :
  Lambda.loadConfig env = Returned cfg ->
  Lambda.UnmarshalDetail env (Lambda.Detail event) = inr detail ->
  String.prefix (Lambda.SecretPrefix cfg)
    (Lambda.SecretId (Lambda.RequestParameters detail)) = false ->
  Lambda.HandleRequest env event w = (Returned None, w) /\
  callsOf (Lambda.HandleRequest env event) w = [].
Proof.
  intros Hc Hd Hp.
  assert (Lambda.HandleRequest env event w = (Returned None, w)) as E.
  { unfold Lambda.HandleRequest. now rewrite Hc, Hd, Hp. }
  split; [assumption|].
  apply (callsOf_withCalls _ _ (Returned None)). now rewrite withCalls_nil.
Qed.

(** [other_prefix_is_skipped] at a sample input: an event for the secret
    billing-db, with the prefix eks-sync- configured. *)
Lemma other_prefix_is_skipped_witness :
  Lambda.HandleRequest Sample.handlerOk (Sample.eventFor "billing-db") Sample.syncedWorld
    = (Returned None, Sample.syncedWorld) /\
  callsOf (Lambda.HandleRequest Sample.handlerOk (Sample.eventFor "billing-db"))
    Sample.syncedWorld = [].
Proof.
  apply (other_prefix_is_skipped Sample.handlerOk (Sample.eventFor "billing-db")
           Sample.syncedWorld Sample.config (Sample.detailOf "billing-db"));
    vm_compute; reflexivity.
Defined.

(** * Further properties of the two programs *)

(** ** The configuration of the handler *)

(** X1. The configuration fails to load, with a panic, exactly when the
    variable EKS_CLUSTER_NAME is empty or not set. *)
Theorem loadConfig_panics_iff (env : Lambda.Env) :
  (exists m, Lambda.loadConfig env = Panicked m) <->
  Lambda.Getenv env "EKS_CLUSTER_NAME" = EmptyString.
Proof.
  unfold Lambda.loadConfig.
  repeat (case_bool_decide; simpl in * ); split; intros Hx;
    try (destruct Hx as (m & Hx)); try discriminate; try congruence; eauto.
Qed.

(** X2. A configuration that loads has no empty field: the cluster name is
    the variable's value, and the region, the prefix and the namespace are
    the values of their variables, or us-east-1, eks-sync- and default
    where the variable is empty. *)
Theorem loadConfig_defaults (env : Lambda.Env) (cfg : Lambda.Config) :
  Lambda.loadConfig env = Returned cfg ->
  (Lambda.EKSClusterName cfg = Lambda.Getenv env "EKS_CLUSTER_NAME" /\
   Lambda.Region cfg = orDefault (Lambda.Getenv env "AWS_REGION") "us-east-1" /\
   Lambda.SecretPrefix cfg = orDefault (Lambda.Getenv env "SECRET_PREFIX") "eks-sync-" /\
   Lambda.Namespace cfg = orDefault (Lambda.Getenv env "K8S_NAMESPACE") "default") /\
  (Lambda.EKSClusterName cfg <> EmptyString /\
   Lambda.Region cfg <> EmptyString /\
   Lambda.SecretPrefix cfg <> EmptyString /\
   Lambda.Namespace cfg <> EmptyString).
Proof.
  unfold Lambda.loadConfig, orDefault.
  repeat (case_bool_decide; simpl in * ); intros [= <-]; simpl;
    repeat split; try assumption; try discriminate; congruence.
Qed.

Lemma loadConfig_defaults_witness :
  Lambda.Region Sample.config = orDefault (Sample.getenv "AWS_REGION") "us-east-1" /\
  Lambda.SecretPrefix Sample.config <> EmptyString.
Proof.
  pose proof (loadConfig_defaults Sample.handlerOk Sample.config eq_refl)
    as [(_ & Hr & _) (_ & _ & Hp & _)].
  split; assumption.
Defined.

(** X3. Without a cluster name the handler panics before it looks at the
    event: whatever the event, also one that would be skipped, no call is
    made and the world is left as it was. *)
Theorem handler_panics_without_cluster_name env event w :
  Lambda.Getenv env "EKS_CLUSTER_NAME" = EmptyString ->
  Lambda.HandleRequest env event w =
    (Panicked "EKS_CLUSTER_NAME environment variable is required", w).
Proof.
  intros Hx. apply loadConfig_panics_iff in Hx as (m & Hm).
  assert (m = "EKS_CLUSTER_NAME environment variable is required") as ->.
  { revert Hm. unfold Lambda.loadConfig.
    repeat (case_bool_decide; simpl in * ); congruence. }
  unfold Lambda.HandleRequest. now rewrite Hm.
Qed.

Lemma handler_panics_without_cluster_name_witness :
  Lambda.HandleRequest
    (Sample.handlerEnvWith (fun _ => EmptyString) Sample.credentialsAnswer noFaults)
    (Sample.eventFor "billing-db") Sample.syncedWorld =
    (Panicked "EKS_CLUSTER_NAME environment variable is required", Sample.syncedWorld).
Proof.
  apply (handler_panics_without_cluster_name
           (Sample.handlerEnvWith (fun _ => EmptyString) Sample.credentialsAnswer noFaults)).
  reflexivity.
Defined.

(** X4. When the detail of the event does not decode, the handler returns
    the decoder's error behind the message of the step; no call is made,
    neither to the source nor to the sink, and the world is left as it
    was. *)
Theorem undecodable_event_is_rejected env event w cfg err :
  Lambda.loadConfig env = Returned cfg ->
  Lambda.UnmarshalDetail env (Lambda.Detail event) = inl err ->
  Lambda.HandleRequest env event w =
    (Returned (Some (Errorf "failed to parse event detail: " err)), w) /\
  Is (Errorf "failed to parse event detail: " err) err.
Proof.
  intros Hc Hd. split; [|apply Is_Errorf].
  unfold Lambda.HandleRequest. now rewrite Hc, Hd.
Qed.

Lemma undecodable_event_is_rejected_witness :
  Lambda.HandleRequest Sample.handlerOk
    {| Lambda.DetailType := "Scheduled Event";
       Lambda.Detail := bytes_of_string Sample.rawText |}
    Sample.syncedWorld =
    (Returned (Some (Errorf "failed to parse event detail: " Sample.syntaxError)),
     Sample.syncedWorld) /\
  Is (Errorf "failed to parse event detail: " Sample.syntaxError) Sample.syntaxError.
Proof.
  apply (undecodable_event_is_rejected Sample.handlerOk _ Sample.syncedWorld Sample.config);
    vm_compute; reflexivity.
Defined.

(** ** What a run of the handler does to the sink *)

Lemma setData_same (s : Secret) : setData (Data s) s = s.
Proof. now destruct s. Qed.

Lemma before_no_sink env cfg secretName :
  List.filter isSinkCall
    (sourceCalls env (Lambda.Region cfg) secretName ++ clientCalls env cfg) = [].
Proof. now rewrite List.filter_app, sourceCalls_no_sink, clientCalls_no_sink. Qed.

(** X5. In a run of the handler the calls on the sink are none at all, or a
    read followed by one write, both about the same secret: the one in the
    configured namespace whose name is the secret id of the event, an id
    that begins with the configured prefix. The handler never reads or
    writes any other secret. *)
Theorem handler_sink_calls env event w :
  wfStore (secrets w) ->
  List.filter isSinkCall (callsOf (Lambda.HandleRequest env event) w) = [] \/
  exists cfg secretName data client c,
    handles env event cfg secretName data client /\
    String.prefix (Lambda.SecretPrefix cfg) secretName = true /\
    List.filter isSinkCall (callsOf (Lambda.HandleRequest env event) w)
      = [GetSecret (Lambda.Namespace cfg, secretName); c] /\
    isWrite c = true /\
    callKey c = Some (Lambda.Namespace cfg, secretName).
Proof.
  intros Hwf.
  destruct (HandleRequest_cases env event w)
    as [(cfg & secretName & data & client & Hh)|(r & cs & E & Hcs)].
  2: { left. now rewrite (callsOf_withCalls _ _ _ _ E). }
  right. exists cfg, secretName, data, client.
  destruct (observed (Lambda.faults env) (Lambda.Namespace cfg, secretName) w)
    as [e|existing] eqn:Hobs.
  - exists (CreateSecret (labelledSecret (Lambda.Namespace cfg) secretName data)).
    rewrite (callsOf_HandleRequest_absent env event w cfg secretName data client Hh e Hobs).
    rewrite List.filter_app, before_no_sink.
    split; [exact Hh|]. split; [now destruct Hh|]. now repeat split.
  - exists (UpdateSecret (setData data existing)).
    rewrite (callsOf_HandleRequest_present env event w cfg secretName data client Hh
               existing Hobs).
    rewrite List.filter_app, before_no_sink.
    apply observed_inr in Hobs as [_ Hs]. apply Hwf in Hs.
    split; [exact Hh|]. split; [now destruct Hh|]. split; [reflexivity|].
    split; [reflexivity|]. simpl. f_equal. exact Hs.
Qed.

Lemma handler_sink_calls_witness :
  List.filter isSinkCall
    (callsOf (Lambda.HandleRequest Sample.handlerOk (Sample.eventFor "eks-sync-db"))
       Sample.syncedWorld) = [] \/
  exists cfg secretName data client c,
    handles Sample.handlerOk (Sample.eventFor "eks-sync-db") cfg secretName data client /\
    String.prefix (Lambda.SecretPrefix cfg) secretName = true /\
    List.filter isSinkCall
      (callsOf (Lambda.HandleRequest Sample.handlerOk (Sample.eventFor "eks-sync-db"))
         Sample.syncedWorld)
      = [GetSecret (Lambda.Namespace cfg, secretName); c] /\
    isWrite c = true /\
    callKey c = Some (Lambda.Namespace cfg, secretName).
Proof.
  apply (handler_sink_calls Sample.handlerOk (Sample.eventFor "eks-sync-db")
           Sample.syncedWorld).
  apply (wfStore_singleton Sample.synced).
Defined.

(** X6. What a run of the handler does to the stores: the bindings are
    never touched; the secrets are left as they were, or one secret is put
    in the place named by the event, with exactly the payload fetched from
    the source (keys that only the old secret had are gone), and then the
    handler returns nil. Every other secret is as it was. *)
Theorem handler_store_effect env event w :
  wfStore (secrets w) ->
  managers (snd (Lambda.HandleRequest env event w)) = managers w /\
  (secrets (snd (Lambda.HandleRequest env event w)) = secrets w \/
   exists cfg secretName data client s,
     handles env event cfg secretName data client /\
     fst (Lambda.HandleRequest env event w) = Returned None /\
     Data s = data /\
     secrets (snd (Lambda.HandleRequest env event w))
       = <[(Lambda.Namespace cfg, secretName) := s]> (secrets w)).
Proof.
  intros Hwf.
  destruct (HandleRequest_cases env event w)
    as [(cfg & secretName & data & client & Hh)|(r & cs & E & Hcs)].
  2: { rewrite E. simpl. auto. }
  destruct (observed (Lambda.faults env) (Lambda.Namespace cfg, secretName) w)
    as [e|existing] eqn:Hobs.
  - pose proof (HandleRequest_absent env event w cfg secretName data client Hh e Hobs) as R.
    simpl in R. rewrite R.
    destruct (createFault (Lambda.faults env)); [simpl; auto|].
    destruct (secrets w !! (Lambda.Namespace cfg, secretName)); [simpl; auto|].
    simpl. split; [reflexivity|]. right.
    exists cfg, secretName, data, client,
      (labelledSecret (Lambda.Namespace cfg) secretName data).
    split; [exact Hh|]. now repeat split.
  - pose proof (HandleRequest_present env event w cfg secretName data client Hh
                  existing Hobs) as R.
    simpl in R. rewrite R.
    apply observed_inr in Hobs as [_ Hs]. pose proof (Hwf _ _ Hs) as Hkey.
    destruct (updateFault (Lambda.faults env)); [simpl; auto|].
    rewrite Hkey, Hs. simpl. split; [reflexivity|]. right.
    exists cfg, secretName, data, client, (setData data existing).
    split; [exact Hh|]. split; [reflexivity|]. split; [reflexivity|].
    unfold keyOf in *. simpl. now rewrite Hkey.
Qed.

Lemma handler_store_effect_witness :
  managers (snd (Lambda.HandleRequest Sample.handlerOk (Sample.eventFor "eks-sync-db")
                   (world ∅ ∅))) = managers (world ∅ ∅).
Proof.
  apply (handler_store_effect Sample.handlerOk (Sample.eventFor "eks-sync-db") (world ∅ ∅)).
  apply wfStore_empty.
Defined.

(** A run of the handler that stops before the sink either skipped the
    event, with nil and no call, or did not return nil. *)
Lemma HandleRequest_stops env event w :
  (exists cfg secretName data client, handles env event cfg secretName data client) \/
  Lambda.HandleRequest env event w = (Returned None, w) \/
  (exists r cs,
     Lambda.HandleRequest env event w = (r, withCalls w cs) /\
     List.filter isSinkCall cs = [] /\
     r <> Returned None).
Proof.
  destruct (Lambda.loadConfig env) as [cfg|m] eqn:Hc.
  2: { right. right. exists (Panicked m), []. unfold Lambda.HandleRequest.
       rewrite Hc, withCalls_nil. now repeat split. }
  destruct (Lambda.UnmarshalDetail env (Lambda.Detail event)) as [e|detail] eqn:Hd.
  { right. right. eexists _, []. unfold Lambda.HandleRequest.
    rewrite Hc, Hd, withCalls_nil. now repeat split. }
  destruct (String.prefix (Lambda.SecretPrefix cfg)
              (Lambda.SecretId (Lambda.RequestParameters detail))) eqn:Hp.
  2: { right. left. unfold Lambda.HandleRequest. now rewrite Hc, Hd, Hp. }
  destruct (sourcePayload env (Lambda.Region cfg)
              (Lambda.SecretId (Lambda.RequestParameters detail))) as [e|data] eqn:Hs.
  { right. right. eexists _, _. unfold Lambda.HandleRequest. rewrite Hc, Hd, Hp. simpl.
    unfold bind at 1. rewrite getSecretFromAWS_run, Hs.
    split; [reflexivity|]. split; [apply sourceCalls_no_sink|discriminate]. }
  destruct (clientOutcome env cfg) as [[e|client]|m] eqn:Hk.
  - right. right. eexists _, _. unfold Lambda.HandleRequest. rewrite Hc, Hd, Hp. simpl.
    unfold bind at 1. rewrite getSecretFromAWS_run, Hs.
    unfold bind at 1. rewrite getKubernetesClient_run, withCalls_withCalls, Hk.
    split; [reflexivity|]. split; [apply before_no_sink|discriminate].
  - left. exists cfg, (Lambda.SecretId (Lambda.RequestParameters detail)), data, client.
    split; eauto.
  - right. right. eexists _, _. unfold Lambda.HandleRequest. rewrite Hc, Hd, Hp. simpl.
    unfold bind at 1. rewrite getSecretFromAWS_run, Hs.
    unfold bind at 1. rewrite getKubernetesClient_run, withCalls_withCalls, Hk.
    split; [reflexivity|]. split; [apply before_no_sink|discriminate].
Qed.

(** X7. When the handler returns nil, either it skipped the event without
    a call, or the sink now holds, under the name of the event, a secret
    whose payload is the one fetched from the source. *)
Theorem handler_success_means_synced env event w :
  wfStore (secrets w) ->
  fst (Lambda.HandleRequest env event w) = Returned None ->
  callsOf (Lambda.HandleRequest env event) w = [] \/
  exists cfg secretName data client s,
    handles env event cfg secretName data client /\
    secrets (snd (Lambda.HandleRequest env event w))
      !! (Lambda.Namespace cfg, secretName) = Some s /\
    Data s = data.
Proof.
  intros Hwf Hok.
  destruct (HandleRequest_stops env event w)
    as [(cfg & secretName & data & client & Hh)|[E|(r & cs & E & _ & Hr)]].
  - right. exists cfg, secretName, data, client.
    destruct (observed (Lambda.faults env) (Lambda.Namespace cfg, secretName) w)
      as [e|existing] eqn:Hobs.
    + pose proof (HandleRequest_absent env event w cfg secretName data client Hh e Hobs) as R.
      simpl in R. rewrite R in *.
      destruct (createFault (Lambda.faults env)); [discriminate|].
      destruct (secrets w !! (Lambda.Namespace cfg, secretName)); [discriminate|].
      exists (labelledSecret (Lambda.Namespace cfg) secretName data). simpl.
      split; [exact Hh|]. split; [apply lookup_insert_eq|reflexivity].
    + pose proof (HandleRequest_present env event w cfg secretName data client Hh
                    existing Hobs) as R.
      simpl in R. rewrite R in *.
      apply observed_inr in Hobs as [_ Hs]. pose proof (Hwf _ _ Hs) as Hkey.
      destruct (updateFault (Lambda.faults env)); [discriminate|].
      rewrite Hkey, Hs in *. exists (setData data existing). simpl.
      split; [exact Hh|]. split; [|reflexivity]. unfold keyOf in *. simpl. rewrite Hkey.
      apply lookup_insert_eq.
  - left. apply (callsOf_withCalls _ _ (Returned None)). now rewrite withCalls_nil.
  - rewrite E in Hok. simpl in Hok. contradiction.
Qed.

Lemma handler_success_means_synced_witness :
  callsOf (Lambda.HandleRequest Sample.handlerOk (Sample.eventFor "eks-sync-db"))
    (world ∅ ∅) = [] \/
  exists cfg secretName data client s,
    handles Sample.handlerOk (Sample.eventFor "eks-sync-db") cfg secretName data client /\
    secrets (snd (Lambda.HandleRequest Sample.handlerOk (Sample.eventFor "eks-sync-db")
                    (world ∅ ∅)))
      !! (Lambda.Namespace cfg, secretName) = Some s /\
    Data s = data.
Proof.
  apply (handler_success_means_synced Sample.handlerOk (Sample.eventFor "eks-sync-db")
           (world ∅ ∅)).
  - apply wfStore_empty.
  - vm_compute. reflexivity.
Defined.

(** X8. The handler writes on every run that reaches the sink, but a
    second run changes nothing: after a run that returned nil, a run for
    the same event with the same answers leaves the secrets exactly as the
    first run left them, and when the read of the sink is answered the
    write it submits is an update with the object that is stored. *)
Theorem handler_second_run_keeps_store env event w cfg secretName data client :
  wfStore (secrets w) ->
  handles env event cfg secretName data client ->
  fst (Lambda.HandleRequest env event w) = Returned None ->
  let w1 := snd (Lambda.HandleRequest env event w) in
  secrets (snd (Lambda.HandleRequest env event w1)) = secrets w1 /\
  (getFault (Lambda.faults env) = None ->
   exists s, secrets w1 !! (Lambda.Namespace cfg, secretName) = Some s /\
             writes (callsOf (Lambda.HandleRequest env event) w1) = [UpdateSecret s]).
Proof.
  intros Hwf Hh Hok w1.
  assert (exists s, Data s = data /\ keyOf s = (Lambda.Namespace cfg, secretName) /\
                    secrets w1 !! (Lambda.Namespace cfg, secretName) = Some s)
    as (s & Hd & Hkey & Hs).
  { unfold w1. clear w1.
    destruct (observed (Lambda.faults env) (Lambda.Namespace cfg, secretName) w)
      as [e|existing] eqn:Hobs.
    - pose proof (HandleRequest_absent env event w cfg secretName data client Hh e Hobs) as R.
      simpl in R. rewrite R in *.
      destruct (createFault (Lambda.faults env)); [discriminate|].
      destruct (secrets w !! (Lambda.Namespace cfg, secretName)); [discriminate|].
      exists (labelledSecret (Lambda.Namespace cfg) secretName data). simpl.
      split; [reflexivity|]. split; [reflexivity|]. apply lookup_insert_eq.
    - pose proof (HandleRequest_present env event w cfg secretName data client Hh
                    existing Hobs) as R.
      simpl in R. rewrite R in *.
      apply observed_inr in Hobs as [_ Hs]. pose proof (Hwf _ _ Hs) as Hkey.
      destruct (updateFault (Lambda.faults env)); [discriminate|].
      rewrite Hkey, Hs in *. exists (setData data existing). simpl.
      split; [reflexivity|]. split; [exact Hkey|].
      unfold keyOf in *. simpl. rewrite Hkey. apply lookup_insert_eq. }
  destruct (getFault (Lambda.faults env)) as [e|] eqn:Hg.
  - split; [|discriminate].
    assert (observed (Lambda.faults env) (Lambda.Namespace cfg, secretName) w1 = inl e)
      as Hobs.
    { unfold observed, getSecret, bind, record. simpl. now rewrite Hg. }
    pose proof (HandleRequest_absent env event w1 cfg secretName data client Hh e Hobs) as R.
    simpl in R. rewrite R, Hs.
    destruct (createFault (Lambda.faults env)); reflexivity.
  - pose proof (observed_present _ _ _ _ Hg Hs) as Hobs.
    pose proof (HandleRequest_present env event w1 cfg secretName data client Hh s Hobs) as R.
    pose proof (callsOf_HandleRequest_present env event w1 cfg secretName data client Hh
                  s Hobs) as C.
    simpl in R. subst data. rewrite setData_same in R, C. split.
    + rewrite R, Hkey, Hs.
      destruct (updateFault (Lambda.faults env)); [reflexivity|]. simpl.
      rewrite Hkey. now apply insert_id.
    + intros _. exists s. split; [exact Hs|].
      rewrite C, writes_app, before_no_write. reflexivity.
Qed.

Lemma handler_second_run_keeps_store_witness :
  secrets (snd (Lambda.HandleRequest Sample.handlerOk (Sample.eventFor "eks-sync-db")
                  (snd (Lambda.HandleRequest Sample.handlerOk
                          (Sample.eventFor "eks-sync-db") (world ∅ ∅)))))
    = secrets (snd (Lambda.HandleRequest Sample.handlerOk
                      (Sample.eventFor "eks-sync-db") (world ∅ ∅))).
Proof.
  apply (handler_second_run_keeps_store Sample.handlerOk (Sample.eventFor "eks-sync-db")
           (world ∅ ∅) Sample.config "eks-sync-db" Sample.payload Sample.client).
  - apply wfStore_empty.
  - apply sample_handles.
  - vm_compute. reflexivity.
Defined.

(** ** What a run of the reconciler does to the sink *)

(** X9. In a run of the reconciler the calls on the sink are none at all,
    or one read, or one read followed by one write; they are all about the
    secret that the binding names. *)
Theorem reconciler_sink_calls env req w :
  wfStore (secrets w) ->
  List.filter isSinkCall (callsOf (Controller.Reconcile env req) w) = [] \/
  exists sm P,
    fetches env req (managers w) sm P /\
    (List.filter isSinkCall (callsOf (Controller.Reconcile env req) w)
       = [GetSecret (sinkKey sm)] \/
     exists c,
       List.filter isSinkCall (callsOf (Controller.Reconcile env req) w)
         = [GetSecret (sinkKey sm); c] /\
       isWrite c = true /\
       callKey c = Some (sinkKey sm)).
Proof.
  intros Hwf.
  destruct (Reconcile_cases env req w) as [(sm & P & Hf)|(err & cs & E & Hcs & _)].
  2: { left. now rewrite (callsOf_withCalls _ _ _ _ E). }
  right. exists sm, P. split; [exact Hf|].
  destruct (observed (Controller.faults env) (sinkKey sm) w) as [e|existing] eqn:Hobs.
  - destruct (IsNotFound e) eqn:Hnf.
    + right. exists (CreateSecret (desiredSecret sm P)).
      rewrite (callsOf_Reconcile_create env req w sm P Hf e Hobs Hnf). now repeat split.
    + left. now rewrite (callsOf_Reconcile_sink_error env req w sm P Hf e Hobs Hnf).
  - destruct (Controller.needUpdate (Data existing) P) eqn:E.
    + right. exists (UpdateSecret (setType SecretTypeOpaque (setData P existing))).
      rewrite (callsOf_Reconcile_update env req w sm P Hf existing Hobs E).
      split; [reflexivity|]. split; [reflexivity|]. simpl. f_equal.
      exact (observed_key env w sm existing Hwf Hobs).
    + left. now rewrite (callsOf_Reconcile_noop env req w sm P Hf existing Hobs E).
Qed.

Lemma reconciler_sink_calls_witness :
  List.filter isSinkCall
    (callsOf (Controller.Reconcile Sample.env Sample.request) Sample.handMadeWorld) = [] \/
  exists sm P,
    fetches Sample.env Sample.request (managers Sample.handMadeWorld) sm P /\
    (List.filter isSinkCall
       (callsOf (Controller.Reconcile Sample.env Sample.request) Sample.handMadeWorld)
       = [GetSecret (sinkKey sm)] \/
     exists c,
       List.filter isSinkCall
         (callsOf (Controller.Reconcile Sample.env Sample.request) Sample.handMadeWorld)
         = [GetSecret (sinkKey sm); c] /\
       isWrite c = true /\
       callKey c = Some (sinkKey sm)).
Proof.
  apply (reconciler_sink_calls Sample.env Sample.request Sample.handMadeWorld).
  apply (wfStore_singleton Sample.handMade).
Defined.

(** X10. What a run of the reconciler does to the stores: the bindings
    are never touched; the secrets are left as they were, or one secret is
    put under the identity that the binding names, with the desired payload
    and the type Opaque, and then the run ends without error and asks for
    the requeue. *)
Theorem reconciler_store_effect env req w :
  wfStore (secrets w) ->
  managers (snd (Controller.Reconcile env req w)) = managers w /\
  (secrets (snd (Controller.Reconcile env req w)) = secrets w \/
   exists sm P s,
     fetches env req (managers w) sm P /\
     fst (Controller.Reconcile env req w) = (requeued, None) /\
     Data s = P /\
     Type_ s = SecretTypeOpaque /\
     secrets (snd (Controller.Reconcile env req w)) = <[sinkKey sm := s]> (secrets w)).
Proof.
  intros Hwf.
  destruct (Reconcile_cases env req w) as [(sm & P & Hf)|(err & cs & E & _ & _)].
  2: { rewrite E. simpl. auto. }
  destruct (observed (Controller.faults env) (sinkKey sm) w) as [e|existing] eqn:Hobs.
  - destruct (IsNotFound e) eqn:Hnf.
    + pose proof (Reconcile_create env req w sm P Hf e Hobs Hnf) as R. simpl in R.
      rewrite R. destruct (createFault (Controller.faults env)); [simpl; auto|].
      destruct (secrets w !! sinkKey sm); [simpl; auto|].
      simpl. split; [reflexivity|]. right. exists sm, P, (desiredSecret sm P).
      split; [exact Hf|]. now repeat split.
    + rewrite (Reconcile_sink_error env req w sm P Hf e Hobs Hnf). simpl. auto.
  - pose proof (observed_key env w sm existing Hwf Hobs) as Hkey.
    destruct (Controller.needUpdate (Data existing) P) eqn:E.
    + pose proof (Reconcile_update env req w sm P Hf existing Hobs E) as R. simpl in R.
      rewrite R. destruct (updateFault (Controller.faults env)); [simpl; auto|].
      destruct (secrets w !! keyOf existing); [|simpl; auto].
      simpl. split; [reflexivity|]. right.
      exists sm, P, (setType SecretTypeOpaque (setData P existing)).
      split; [exact Hf|]. do 3 (split; [reflexivity|]).
      unfold keyOf in *. simpl. now rewrite Hkey.
    + rewrite (Reconcile_noop env req w sm P Hf existing Hobs E). simpl. auto.
Qed.

Lemma reconciler_store_effect_witness :
  managers (snd (Controller.Reconcile Sample.env Sample.request Sample.handMadeWorld))
    = managers Sample.handMadeWorld.
Proof.
  apply (reconciler_store_effect Sample.env Sample.request Sample.handMadeWorld).
  apply (wfStore_singleton Sample.handMade).
Defined.

(** X11. A run for a binding that is gone reads the binding and stops: it
    returns the empty result and nil, so that no requeue is asked for; it
    calls neither the source nor the sink, and the secret that an earlier
    run created stays where it is. A read of the binding that fails for
    another reason ends the run with that error. *)
Theorem reconcile_binding_gone env req w :
  (Controller.managerFault env = None ->
   managers w !! Controller.NamespacedName req = None ->
   Controller.Reconcile env req w =
     ((Controller.emptyResult, None),
      withCalls w [GetManager (Controller.NamespacedName req)])) /\
  (forall e, Controller.managerFault env = Some e -> IsNotFound e = false ->
   Controller.Reconcile env req w =
     ((Controller.emptyResult, Some e),
      withCalls w [GetManager (Controller.NamespacedName req)])).
Proof.
  split.
  - intros Hf Hm. unfold Controller.Reconcile, getManager, bind, record, ret. simpl.
    now rewrite Hf, Hm.
  - intros e Hf Hnf. unfold Controller.Reconcile, getManager, bind, record, ret. simpl.
    rewrite Hf. simpl. now rewrite Hnf.
Qed.

Lemma reconcile_binding_gone_witness :
  Controller.Reconcile Sample.env Sample.request
    (world ∅ {[ ("prod", "db-credentials") := Sample.handMade ]}) =
    ((Controller.emptyResult, None),
     withCalls (world ∅ {[ ("prod", "db-credentials") := Sample.handMade ]})
       [GetManager (Controller.NamespacedName Sample.request)]).
Proof.
  apply (proj1 (reconcile_binding_gone Sample.env Sample.request
                  (world ∅ {[ ("prod", "db-credentials") := Sample.handMade ]})));
    reflexivity.
Defined.

(** Neither program changes the secrets other than by putting one. *)
Lemma Reconcile_secrets env req w :
  secrets (snd (Controller.Reconcile env req w)) = secrets w \/
  exists s, secrets (snd (Controller.Reconcile env req w)) = <[keyOf s := s]> (secrets w).
Proof.
  destruct (Reconcile_cases env req w) as [(sm & P & Hf)|(err & cs & E & _ & _)].
  2: { rewrite E. now left. }
  destruct (observed (Controller.faults env) (sinkKey sm) w) as [e|existing] eqn:Hobs.
  - destruct (IsNotFound e) eqn:Hnf.
    + pose proof (Reconcile_create env req w sm P Hf e Hobs Hnf) as R. simpl in R.
      rewrite R. destruct (createFault (Controller.faults env)); [now left|].
      destruct (secrets w !! sinkKey sm); [now left|]. right. now eexists.
    + rewrite (Reconcile_sink_error env req w sm P Hf e Hobs Hnf). now left.
  - destruct (Controller.needUpdate (Data existing) P) eqn:E.
    + pose proof (Reconcile_update env req w sm P Hf existing Hobs E) as R. simpl in R.
      rewrite R. destruct (updateFault (Controller.faults env)); [now left|].
      destruct (secrets w !! keyOf existing); [|now left]. right. now eexists.
    + rewrite (Reconcile_noop env req w sm P Hf existing Hobs E). now left.
Qed.

Lemma HandleRequest_secrets env event w :
  secrets (snd (Lambda.HandleRequest env event w)) = secrets w \/
  exists s, secrets (snd (Lambda.HandleRequest env event w)) = <[keyOf s := s]> (secrets w).
Proof.
  destruct (HandleRequest_cases env event w)
    as [(cfg & secretName & data & client & Hh)|(r & cs & E & Hcs)].
  2: { rewrite E. now left. }
  destruct (observed (Lambda.faults env) (Lambda.Namespace cfg, secretName) w)
    as [e|existing] eqn:Hobs.
  - pose proof (HandleRequest_absent env event w cfg secretName data client Hh e Hobs) as R.
    simpl in R. rewrite R.
    destruct (createFault (Lambda.faults env)); [now left|].
    destruct (secrets w !! (Lambda.Namespace cfg, secretName)); [now left|].
    right. now eexists.
  - pose proof (HandleRequest_present env event w cfg secretName data client Hh
                  existing Hobs) as R.
    simpl in R. rewrite R.
    destruct (updateFault (Lambda.faults env)); [now left|].
    destruct (secrets w !! keyOf existing); [|now left]. right. now eexists.
Qed.

(** X12. Neither program ever deletes a secret: every secret that the sink
    holds before a run of the reconciler or of the handler is still held,
    under the same namespace and name, after it. *)
Theorem no_secret_is_deleted k :
  (forall env req w,
     is_Some (secrets w !! k) ->
     is_Some (secrets (snd (Controller.Reconcile env req w)) !! k)) /\
  (forall env event w,
     is_Some (secrets w !! k) ->
     is_Some (secrets (snd (Lambda.HandleRequest env event w)) !! k)).
Proof.
  split.
  - intros env req w Hk. destruct (Reconcile_secrets env req w) as [->|(s & ->)];
      [exact Hk|]. rewrite lookup_insert. case_decide; eauto.
  - intros env event w Hk. destruct (HandleRequest_secrets env event w) as [->|(s & ->)];
      [exact Hk|]. rewrite lookup_insert. case_decide; eauto.
Qed.

Lemma no_secret_is_deleted_witness :
  is_Some (secrets (snd (Controller.Reconcile Sample.env Sample.request
                           Sample.handMadeWorld)) !! ("prod", "db-credentials")) /\
  is_Some (secrets (snd (Lambda.HandleRequest Sample.handlerOk
                           (Sample.eventFor "eks-sync-db") Sample.syncedWorld))
             !! ("default", "eks-sync-db")).
Proof.
  split.
  - apply (proj1 (no_secret_is_deleted ("prod", "db-credentials"))).
    vm_compute. eauto.
  - apply (proj2 (no_secret_is_deleted ("default", "eks-sync-db"))).
    vm_compute. eauto.
Defined.

(** ** The comparison and the payloads *)

(** X13. The decision of the comparison does not depend on the order in
    which the loop visits the entries of the desired payload: for key sets
    of equal size, the loop run over any arrangement of the entries gives
    what [needUpdate] gives. *)
Theorem needUpdate_any_order (existing desired : gmap string bytes)
    (l : list (string * bytes)) :
  l ≡ₚ map_to_list desired ->
  size existing = size desired ->
  Controller.rangeDiffers existing l = Controller.needUpdate existing desired.
Proof.
  intros Hp Hsz. unfold Controller.needUpdate.
  rewrite bool_decide_eq_false_2 by (intros Hn; now apply Hn).
  now apply rangeDiffers_Permutation.
Qed.

Lemma needUpdate_any_order_witness :
  Controller.rangeDiffers (Data Sample.handMade) (reverse (map_to_list Sample.payload))
    = Controller.needUpdate (Data Sample.handMade) Sample.payload.
Proof.
  apply needUpdate_any_order.
  - apply reverse_Permutation.
  - vm_compute. reflexivity.
Defined.

(** X14. The loop visits only the keys of the desired payload, and still
    the comparison is symmetric: exchanging the two payloads gives the same
    decision. So a key that only the observed payload has forces an
    update. *)
Theorem needUpdate_symmetric (existing desired : gmap string bytes) :
  Controller.needUpdate existing desired = Controller.needUpdate desired existing /\
  (forall k v, existing !! k = Some v -> desired !! k = None ->
               Controller.needUpdate existing desired = true).
Proof.
  split.
  - destruct (Controller.needUpdate existing desired) eqn:E1,
             (Controller.needUpdate desired existing) eqn:E2; try reflexivity.
    + apply needUpdate_false in E2. symmetry in E2. apply needUpdate_false in E2.
      congruence.
    + apply needUpdate_false in E1. symmetry in E1. apply needUpdate_false in E1.
      congruence.
  - intros k v Hk Hn. destruct (Controller.needUpdate existing desired) eqn:E;
      [reflexivity|]. apply needUpdate_false in E. congruence.
Qed.

Lemma needUpdate_symmetric_witness :
  Controller.needUpdate (<[ "stray" := [] ]> Sample.payload) Sample.payload = true.
Proof.
  apply (proj2 (needUpdate_symmetric (<[ "stray" := [] ]> Sample.payload) Sample.payload)
           "stray" []); vm_compute; reflexivity.
Defined.

Lemma string_of_bytes_of_string (s : string) : string_of_bytes (bytes_of_string s) = s.
Proof. apply string_of_list_byte_of_string. Qed.

(** X15. In the reconciler, a text that decodes into a mapping gives a
    payload with exactly the keys of the mapping, and no byte is lost on
    the way: read back as strings, the values of the payload are the
    values of the mapping. *)
Theorem reconciler_payload_round_trip env getOut text tmp :
  SecretString getOut = Some text ->
  Controller.Unmarshal env text = inr tmp ->
  exists P,
    Controller.secretDataOf env getOut = inr P /\
    string_of_bytes <$> P = tmp /\
    dom P = dom tmp /\
    size P = size tmp.
Proof.
  intros Ht Hu. exists (bytes_of_string <$> tmp).
  unfold Controller.secretDataOf. rewrite Ht, Hu, rangeAssign_fmap.
  split; [reflexivity|]. split; [|split].
  - rewrite <- map_fmap_compose. apply map_eq. intros k.
    rewrite lookup_fmap. destruct (tmp !! k); simpl; [|reflexivity].
    now rewrite string_of_bytes_of_string.
  - apply dom_fmap_L.
  - apply map_size_fmap.
Qed.

Lemma reconciler_payload_round_trip_witness :
  exists P,
    Controller.secretDataOf Sample.env
      {| SecretString := Some Sample.credentialsText; SecretBinary := None |} = inr P /\
    string_of_bytes <$> P = Sample.credentials /\
    dom P = dom Sample.credentials /\
    size P = size Sample.credentials.
Proof.
  apply (reconciler_payload_round_trip Sample.env _ Sample.credentialsText); reflexivity.
Defined.

(** The loop of the handler that fills the payload from the decoded
    object stores the bytes of every printed value under its key. *)
Lemma handler_rangeAssign_fmap env (jsonData : gmap string (Lambda.JsonValue env)) :
  Lambda.rangeAssign env jsonData ∅
    = (fun v => bytes_of_string (Lambda.Sprintf_v env v)) <$> jsonData.
Proof.
  unfold Lambda.rangeAssign.
  apply (map_fold_weak_ind
           (fun r m => r = (fun v => bytes_of_string (Lambda.Sprintf_v env v)) <$> m)).
  - now rewrite fmap_empty.
  - intros k v m r _ ->. now rewrite fmap_insert.
Qed.

(** X16. In the handler, a text that decodes into an object gives a
    payload with one entry for every member of the object and no other:
    under each key, the bytes of the member's value as [%v] prints it. *)
Theorem handler_payload_of_object env region secretName result text jsonData :
  Lambda.LoadDefaultConfig env region = None ->
  Lambda.GetSecretValue env region secretName = inr result ->
  SecretString result = Some text ->
  Lambda.UnmarshalObject env text = inr jsonData ->
  exists data,
    sourcePayload env region secretName = inr data /\
    (forall k, data !! k
               = (fun v => bytes_of_string (Lambda.Sprintf_v env v)) <$> (jsonData !! k)) /\
    size data = size jsonData.
Proof.
  intros Hl Hg Ht Hu.
  exists ((fun v => bytes_of_string (Lambda.Sprintf_v env v)) <$> jsonData).
  split; [|split].
  - unfold sourcePayload, Lambda.getSecretFromAWS, bind, record, ret.
    rewrite Hl. simpl. rewrite Hg, Ht, Hu. simpl. now rewrite handler_rangeAssign_fmap.
  - intros k. apply lookup_fmap.
  - apply map_size_fmap.
Qed.

Lemma handler_payload_of_object_witness :
  exists data,
    sourcePayload Sample.handlerOk "us-east-1" "eks-sync-db" = inr data /\
    (forall k, data !! k
               = (fun v => bytes_of_string (Lambda.Sprintf_v Sample.handlerOk v))
                   <$> (Sample.credentials !! k)) /\
    size data = size Sample.credentials.
Proof.
  apply (handler_payload_of_object Sample.handlerOk "us-east-1" "eks-sync-db"
           {| SecretString := Some Sample.credentialsText; SecretBinary := None |}
           Sample.credentialsText Sample.credentials); reflexivity.
Defined.



(** ** The errors of the handler *)

(** X18. The handler never returns an error of a library or a service as
    it got it: every error it returns is a wrapped error whose message
    begins with the words failed to, which name the step that failed. *)
Theorem handler_errors_are_wrapped env event w err :
  fst (Lambda.HandleRequest env event w) = Returned (Some err) ->
  String.prefix "failed to " (Error err) = true /\
  exists message inner, err = WrapError message inner.
Proof.
  unfold Lambda.HandleRequest.
  destruct (Lambda.loadConfig env) as [cfg|m]; [|discriminate].
  destruct (Lambda.UnmarshalDetail env (Lambda.Detail event)) as [e|detail].
  { intros [= <-]. split; [reflexivity|]. unfold Errorf. eauto. }
  destruct (String.prefix (Lambda.SecretPrefix cfg) _); simpl; [|discriminate].
  unfold bind at 1. rewrite getSecretFromAWS_run.
  destruct (sourcePayload env _ _) as [e|data].
  { intros [= <-]. split; [reflexivity|]. unfold Errorf. eauto. }
  unfold bind at 1. rewrite getKubernetesClient_run.
  destruct (clientOutcome env cfg) as [[e|client]|m]; [| |discriminate].
  { intros [= <-]. split; [reflexivity|]. unfold Errorf. eauto. }
  unfold bind at 1.
  destruct (Lambda.updateKubernetesSecret _ _ _ _ _ _) as [[e|] w']; [|discriminate].
  intros [= <-]. split; [reflexivity|]. unfold Errorf. eauto.
Qed.

Lemma handler_errors_are_wrapped_witness :
  String.prefix "failed to "
    (Error (Errorf "failed to get secret from AWS: "
              (Errorf "failed to get secret value: " Sample.throttled))) = true /\
  exists message inner,
    Errorf "failed to get secret from AWS: "
      (Errorf "failed to get secret value: " Sample.throttled)
      = WrapError message inner.
Proof.
  apply (handler_errors_are_wrapped (Sample.handlerEnv (inl Sample.throttled) noFaults)
           (Sample.eventFor "eks-sync-db") Sample.syncedWorld).
  vm_compute. reflexivity.
Defined.

(** X19. The handler fetches the secret from the source before it connects
    to the cluster. When the description of the cluster cannot be read, the
    source has been called already; the handler returns that error behind
    the messages of the two steps, and makes no call on the sink. *)
Theorem cluster_failure_after_fetch env event w cfg detail data err :
  Lambda.loadConfig env = Returned cfg ->
  Lambda.UnmarshalDetail env (Lambda.Detail event) = inr detail ->
  let secretName := Lambda.SecretId (Lambda.RequestParameters detail) in
  String.prefix (Lambda.SecretPrefix cfg) secretName = true ->
  sourcePayload env (Lambda.Region cfg) secretName = inr data ->
  Lambda.DescribeCluster env (Lambda.EKSClusterName cfg) = inl err ->
  Lambda.HandleRequest env event w =
    (Returned (Some (Errorf "failed to create kubernetes client: "
                       (Errorf "failed to describe EKS cluster: " err))),
     withCalls w [AwsGetSecretValue (Lambda.Region cfg) secretName;
                  EksDescribeCluster (Lambda.EKSClusterName cfg)]).
Proof.
  intros Hc Hd secretName Hp Hs Hk.
  assert (Lambda.LoadDefaultConfig env (Lambda.Region cfg) = None) as Hl.
  { destruct (Lambda.LoadDefaultConfig env (Lambda.Region cfg)) eqn:Hl; [|reflexivity].
    unfold sourcePayload, Lambda.getSecretFromAWS, ret in Hs. rewrite Hl in Hs.
    discriminate. }
  unfold Lambda.HandleRequest. rewrite Hc, Hd. fold secretName. rewrite Hp. simpl.
  unfold bind at 1. rewrite getSecretFromAWS_run, Hs.
  unfold bind at 1. rewrite getKubernetesClient_run, withCalls_withCalls.
  unfold clientOutcome, clientCalls, sourceCalls, callsOf,
    Lambda.getKubernetesClient, Lambda.getSecretFromAWS, bind, record, ret.
  rewrite Hl. simpl. rewrite Hk. simpl.
  unfold sourcePayload, Lambda.getSecretFromAWS, bind, record, ret in Hs.
  rewrite Hl in Hs. simpl in Hs.
  destruct (Lambda.GetSecretValue env (Lambda.Region cfg) secretName) as [e|result];
    [discriminate|].
  simpl. destruct (SecretString result) as [text|].
  - destruct (Lambda.UnmarshalObject env text); reflexivity.
  - destruct (SecretBinary result); reflexivity.
Qed.

Lemma cluster_failure_after_fetch_witness :
  Lambda.HandleRequest Sample.handlerNoCluster (Sample.eventFor "eks-sync-db")
    Sample.syncedWorld =
    (Returned (Some (Errorf "failed to create kubernetes client: "
                       (Errorf "failed to describe EKS cluster: " Sample.throttled))),
     withCalls Sample.syncedWorld
       [AwsGetSecretValue "us-east-1" "eks-sync-db"; EksDescribeCluster "demo-eks"]).
Proof.
  apply (cluster_failure_after_fetch Sample.handlerNoCluster (Sample.eventFor "eks-sync-db")
           Sample.syncedWorld Sample.config (Sample.detailOf "eks-sync-db") Sample.payload
           Sample.throttled); vm_compute; reflexivity.
Defined.

(** ** The provisioning program *)

(** X20. The provisioning function does not report a failure of its last
    two registrations, the instance profile and the security group of the
    nodes: when the eight calls before them succeed it makes all ten calls,
    the security group also after a failed instance profile, and returns
    nil whatever the two answer. *)
Theorem infra_drops_last_errors (answer : Infra.Call -> option error) :
  (forall c, c ∈ Infra.checked -> answer c = None) ->
  Infra.run answer = (None, Infra.allCalls).
Proof.
  intros H. unfold Infra.run.
  rewrite !H by (unfold Infra.checked; set_solver). reflexivity.
Qed.

Lemma infra_drops_last_errors_witness :
  Sample.lastTwoFail Infra.nodeInstanceProfile = Some Sample.throttled /\
  Sample.lastTwoFail Infra.nodeSecurityGroup = Some Sample.forbidden /\
  Infra.run Sample.lastTwoFail = (None, Infra.allCalls).
Proof.
  split; [reflexivity|]. split; [reflexivity|].
  apply infra_drops_last_errors.
  intros c Hc. unfold Infra.checked in Hc.
  repeat (apply elem_of_cons in Hc as [->|Hc]; [reflexivity|]).
  now apply not_elem_of_nil in Hc.
Defined.

Ltac earlier Hc :=
  unfold Infra.checked in Hc; simpl in Hc;
  repeat (apply elem_of_cons in Hc as [->|Hc]; [assumption|]);
  now apply not_elem_of_nil in Hc.

(** X21. When the provisioning function returns an error, it is the error
    of one of the eight calls that it checks, returned unchanged; every
    call before that one succeeded, and no call is made after it. *)
Theorem infra_stops_at_first_error (answer : Infra.Call -> option error)
    (err : error) (made : list Infra.Call) :
  Infra.run answer = (Some err, made) ->
  exists n c,
    Infra.checked !! n = Some c /\
    answer c = Some err /\
    made = take (S n) Infra.checked /\
    (forall c', c' ∈ take n Infra.checked -> answer c' = None).
Proof.
  unfold Infra.run.
  destruct (answer Infra.marshalClusterPolicy) eqn:H1.
  { intros [= <- <-]. exists 0, Infra.marshalClusterPolicy. repeat split; try assumption.
    intros c' Hc. now apply not_elem_of_nil in Hc. }
  destruct (answer Infra.clusterRole) eqn:H2.
  { intros [= <- <-]. exists 1, Infra.clusterRole. repeat split; try assumption.
    intros c' Hc. earlier Hc. }
  destruct (answer Infra.clusterPolicyAttachment) eqn:H3.
  { intros [= <- <-]. exists 2, Infra.clusterPolicyAttachment.
    repeat split; try assumption. intros c' Hc. earlier Hc. }
  destruct (answer Infra.lookupVpc) eqn:H4.
  { intros [= <- <-]. exists 3, Infra.lookupVpc. repeat split; try assumption.
    intros c' Hc. earlier Hc. }
  destruct (answer Infra.getSubnets) eqn:H5.
  { intros [= <- <-]. exists 4, Infra.getSubnets. repeat split; try assumption.
    intros c' Hc. earlier Hc. }
  destruct (answer Infra.eksCluster) eqn:H6.
  { intros [= <- <-]. exists 5, Infra.eksCluster. repeat split; try assumption.
    intros c' Hc. earlier Hc. }
  destruct (answer Infra.marshalNodePolicy) eqn:H7.
  { intros [= <- <-]. exists 6, Infra.marshalNodePolicy. repeat split; try assumption.
    intros c' Hc. earlier Hc. }
  destruct (answer Infra.nodeRole) eqn:H8.
  { intros [= <- <-]. exists 7, Infra.nodeRole. repeat split; try assumption.
    intros c' Hc. earlier Hc. }
  discriminate.
Qed.

Lemma infra_stops_at_first_error_witness :
  exists n c,
    Infra.checked !! n = Some c /\
    Sample.vpcFails c = Some Sample.throttled /\
    [Infra.marshalClusterPolicy; Infra.clusterRole; Infra.clusterPolicyAttachment;
     Infra.lookupVpc] = take (S n) Infra.checked /\
    (forall c', c' ∈ take n Infra.checked -> Sample.vpcFails c' = None).
Proof.
  apply (infra_stops_at_first_error Sample.vpcFails Sample.throttled).
  reflexivity.
Defined.
